(** * AI_Chatroom: model scoring, model discovery, chat relay and analytics

    A shallow embedding of the decision logic of the repository:
    - the two server files [src/unnamed/part_000] and [src/unnamed/part_001]
      (model scorer, model discovery, the /api/chat handler);
    - the client-side aggregator [src/analytics.js].

    JavaScript strings are embedded as [string], counters and scores as [Z],
    durations as [Q], [null] as [None]. *)

From Stdlib Require Import String Ascii List ZArith QArith Qround Bool Lia.
Import ListNotations.

Set Warnings "-register-all".

Local Open Scope string_scope.
Local Open Scope Z_scope.

(* ================================================================== *)
(** ** JavaScript primitives used by the sources *)

Module Js.

(** [hay.includes(needle)]: [needle] occurs in [hay] as a substring. *)
Fixpoint includes (hay needle : string) : bool :=
  String.prefix needle hay
  || match hay with
     | EmptyString => false
     | String _ rest => includes rest needle
     end.

(** Truthiness of a string value: only the empty string is falsy. *)
Definition truthy_string (s : string) : bool :=
  match s with
  | EmptyString => false
  | String _ _ => true
  end.

(** Truthiness of a slot holding either [null] or a string. *)
Definition truthy (slot : option string) : bool :=
  match slot with
  | None => false
  | Some s => truthy_string s
  end.

(** [Array.prototype.sort] is stable; called with a comparator that orders
    by descending [score] it yields the stable arrangement by descending
    score.  [sort_desc] computes that arrangement by insertion: an element
    is placed before the first one whose score does not exceed its own. *)
Section Sort.
Variable score : string -> Z.

Fixpoint insert_desc (x : string) (sorted : list string) : list string :=
  match sorted with
  | [] => [x]
  | y :: rest =>
      if score x <? score y then y :: insert_desc x rest
      else x :: y :: rest
  end.

Definition sort_desc (l : list string) : list string :=
  fold_right insert_desc [] l.
End Sort.

End Js.

(* ================================================================== *)
(** ** Process-wide discovery state and the effects of the server code *)

Module Server.

(** [let availableModels = { text: null, vision: null, allModels: [] }] *)
Record AvailableModels := mkModels {
  text : option string;
  vision : option string;
  allModels : list string
}.

Definition initialModels : AvailableModels :=
  {| text := None; vision := None; allModels := [] |}.

(** How a call completes: it returns a value or throws. *)
Inductive completion (A : Type) : Type :=
| Returned (a : A)
| Thrown.
Arguments Returned {A} a.
Arguments Thrown {A}.

(** Code that reads and writes [availableModels] and may throw.  A write
    made before a throw stays in the state, as in JavaScript. *)
Definition Run (A : Type) : Type :=
  AvailableModels -> AvailableModels * completion A.

Definition ret {A} (a : A) : Run A := fun st => (st, Returned a).

Definition bind {A B} (m : Run A) (k : A -> Run B) : Run B :=
  fun st =>
    match m st with
    | (st', Returned a) => k a st'
    | (st', Thrown) => (st', Thrown)
    end.

Definition throw {A} : Run A := fun st => (st, Thrown).

(** [try { body } catch (e) { handler }] *)
Definition try_catch {A} (body handler : Run A) : Run A :=
  fun st =>
    match body st with
    | (st', Returned a) => (st', Returned a)
    | (st', Thrown) => handler st'
    end.

(** Lifts the completion of an external call. *)
Definition await {A} (c : completion A) : Run A := fun st => (st, c).

Definition get : Run AvailableModels := fun st => (st, Returned st).

(** Assignment to a slot; [None] stands for [null] and [undefined]. *)
Definition set_text (m : option string) : Run unit :=
  fun st => ({| text := m; vision := vision st;
                allModels := allModels st |}, Returned tt).

Definition set_vision (m : option string) : Run unit :=
  fun st => ({| text := text st; vision := m;
                allModels := allModels st |}, Returned tt).

Definition set_allModels (l : list string) : Run unit :=
  fun st => ({| text := text st; vision := vision st;
                allModels := l |}, Returned tt).

(** [availableModels.allModels.push(m)] *)
Definition push_allModels (m : string) : Run unit :=
  fun st => ({| text := text st; vision := vision st;
                allModels := allModels st ++ [m] |}, Returned tt).

Definition when (c : bool) (m : Run unit) : Run unit :=
  if c then m else ret tt.

(** [for (const x of l) body(x)] *)
Fixpoint for_of {A} (l : list A) (body : A -> Run unit) : Run unit :=
  match l with
  | [] => ret tt
  | x :: rest => bind (body x) (fun _ => for_of rest body)
  end.

(** The candidates of a catalog with their position in the iteration. *)
Definition indexed (l : list string) : list (nat * string) :=
  combine (seq 0 (List.length l)) l.

(** The generative-AI SDK as the discovery code sees it.  [listModels]
    either throws or resolves; a resolved value carries the names of
    [models.models] when that array is present.  The probes of the
    fallback loop are keyed by the position of the candidate in the
    catalog: the liveness request [generateContent("Test")] and the
    multimodal request [generateContent([question, imagePart])]. *)
Record GenerativeAI := mkAI {
  listModels : completion (option (list string));
  generateText : nat -> completion unit;
  generateImage : nat -> completion unit
}.

End Server.

Declare Scope run_scope.
Delimit Scope run_scope with run.
Notation "x <- m ;; k" := (Server.bind m (fun x => k))
  (at level 61, m at next level, right associativity) : run_scope.
Notation "m ;; k" := (Server.bind m (fun _ => k))
  (at level 61, right associativity) : run_scope.

Local Open Scope run_scope.

(* ================================================================== *)
(** ** [src/unnamed/part_000]: scorer and discovery *)

Module Part000.
Import Js Server.

(** [function getModelScore(modelName)] *)
Definition getModelScore (modelName : string) : Z :=
  let score := 0 in
  (* Generation scores *)
  let score :=
    if includes modelName "2.0" then score + 200
    else if includes modelName "1.5" then score + 100
    else if includes modelName "1.0" then score + 50
    else score + 10 in
  (* Capability tier scores *)
  let score :=
    if includes modelName "pro" then score + 30
    else if includes modelName "flash" then score + 20
    else score in
  (* Vision capability (highest priority) *)
  let score := if includes modelName "vision" then score + 100 else score in
  score.

(** [function isBetterModel(newModel, currentModel)] *)
Definition isBetterModel (newModel currentModel : string) : bool :=
  getModelScore newModel >? getModelScore currentModel.

(** [isBetterModel(newModel, slot)] with the second argument read from a
    slot of [availableModels]: on [null] the call [null.includes] inside
    [getModelScore] throws. *)
Definition isBetterThanSlot (newModel : string) (slot : option string)
  : Run bool :=
  match slot with
  | Some currentModel => ret (isBetterModel newModel currentModel)
  | None => throw
  end.

Definition visionModels : list string :=
  [ "gemini-2.0-vision"; "gemini-2.0-pro-vision";
    "gemini-1.5-pro-vision"; "gemini-1.5-vision"; "gemini-1.5-flash-vision";
    "gemini-pro-vision"; "gemini-vision";
    "gemini-2.0-flash"; "gemini-1.5-pro"; "gemini-1.5-flash" ].

Definition textModels : list string :=
  [ "gemini-2.0-pro"; "gemini-2.0-flash"; "gemini-1.5-pro";
    "gemini-1.5-flash"; "gemini-pro" ].

Definition allPotentialModels : list string :=
  (visionModels ++ textModels)%list.

(** [function identifyAndCategorizeModels(modelsList)]; the branch without
    explicit vision models only logs. *)
Definition identifyAndCategorizeModels (modelsList : list string)
  : Run unit :=
  let explicitVisionModels :=
    filter (fun m => includes m "vision") modelsList in
  when (0 <? List.length explicitVisionModels)%nat
    (let explicitVisionModels :=
       sort_desc getModelScore explicitVisionModels in
     set_vision (hd_error explicitVisionModels)) ;;
  let allModels := sort_desc getModelScore modelsList in
  when (0 <? List.length allModels)%nat
    (set_text (hd_error allModels)).

(** One iteration of the fallback loop
    [for (const modelName of allPotentialModels) { try { ... } catch {} }]
    for the candidate at position [i]. *)
Definition probeCandidate (genAI : GenerativeAI) (c : nat * string)
  : Run unit :=
  let (i, modelName) := c in
  try_catch
    (await (generateText genAI i) ;;
     push_allModels modelName ;;
     (if negb (includes modelName "vision") then
        try_catch
          (await (generateImage genAI i) ;;
           st <- get ;;
           when (negb (truthy (vision st))) (set_vision (Some modelName)))
          (ret tt)
      else
        st <- get ;;
        when (negb (truthy (vision st))) (set_vision (Some modelName))) ;;
     st <- get ;;
     when (negb (truthy (text st))) (set_text (Some modelName)) ;;
     st <- get ;;
     when (truthy (vision st) && includes modelName "vision")
       (better <- isBetterThanSlot modelName (vision st) ;;
        when better (set_vision (Some modelName))) ;;
     st <- get ;;
     better <- isBetterThanSlot modelName (text st) ;;
     when better (set_text (Some modelName)))
    (ret tt).

(** The fallback loop over a list of positioned candidates. *)
Definition probeLoop (genAI : GenerativeAI) (cands : list (nat * string))
  : Run unit :=
  for_of cands (probeCandidate genAI).

(** [async function discoverAvailableModels()].  The inner [try] yields
    [true] when it has executed its [return true]. *)
Definition discoverAvailableModels (genAI : GenerativeAI) : Run bool :=
  try_catch
    (listed <-
       try_catch
         (models <- await (listModels genAI) ;;
          match models with
          | Some names =>
              if (0 <? List.length names)%nat then
                set_allModels names ;;
                st <- get ;;
                identifyAndCategorizeModels (allModels st) ;;
                ret true
              else ret false
          | None => ret false
          end)
         (ret false) ;;
     if (listed : bool) then ret true
     else
       probeLoop genAI (indexed allPotentialModels) ;;
       st <- get ;;
       ret (0 <? List.length (allModels st))%nat)
    (ret false).

End Part000.

(* ================================================================== *)
(** ** [src/unnamed/part_001]: scorer and discovery *)

Module Part001.
Import Js Server.

(** [function getModelScore(modelName)] *)
Definition getModelScore (modelName : string) : Z :=
  let score := 0 in
  (* Prioritize by generation *)
  let score :=
    if includes modelName "2.0" then score + 100
    else if includes modelName "1.5" then score + 50
    else if includes modelName "1.0" then score + 10
    else score in
  (* Prioritize by capability tier *)
  let score :=
    if includes modelName "ultra" then score + 30
    else if includes modelName "pro" then score + 20
    else if includes modelName "flash" then score + 15
    else score in
  (* Adjust for vision capability *)
  let score := if includes modelName "vision" then score + 25 else score in
  score.

(** [function isBetterModel(newModel, currentModel)] *)
Definition isBetterModel (newModel currentModel : string) : bool :=
  getModelScore newModel >? getModelScore currentModel.

(** [isBetterModel(newModel, slot)] with the second argument read from a
    slot of [availableModels]: on [null] the call [null.includes] inside
    [getModelScore] throws. *)
Definition isBetterThanSlot (newModel : string) (slot : option string)
  : Run bool :=
  match slot with
  | Some currentModel => ret (isBetterModel newModel currentModel)
  | None => throw
  end.

Definition potentialModels : list string :=
  [ "gemini-2.0-vision"; "gemini-1.5-vision"; "gemini-1.5-pro-vision";
    "gemini-pro-vision"; "gemini-vision";
    "gemini-2.0-pro-vision"; "gemini-ultra-vision";
    "gemini-2.0-flash"; "gemini-2.0-pro"; "gemini-1.5-flash";
    "gemini-1.5-pro"; "gemini-pro" ].

(** One iteration of the fallback loop
    [for (const modelName of potentialModels) { try { ... } catch {} }]
    for the candidate at position [i]. *)
Definition probeCandidate (genAI : GenerativeAI) (c : nat * string)
  : Run unit :=
  let (i, modelName) := c in
  try_catch
    (await (generateText genAI i) ;;
     push_allModels modelName ;;
     st <- get ;;
     if includes modelName "vision" then
       if negb (truthy (vision st)) then set_vision (Some modelName)
       else
         better <- isBetterThanSlot modelName (vision st) ;;
         when better (set_vision (Some modelName))
     else
       if negb (truthy (text st)) then set_text (Some modelName)
       else
         better <- isBetterThanSlot modelName (text st) ;;
         when better (set_text (Some modelName)))
    (ret tt).

(** The fallback loop over a list of positioned candidates. *)
Definition probeLoop (genAI : GenerativeAI) (cands : list (nat * string))
  : Run unit :=
  for_of cands (probeCandidate genAI).

(** The branch of [discoverAvailableModels] that processes the models
    returned by the API. *)
Definition processListedModels : Run unit :=
  st <- get ;;
  let visionModels := filter (fun m => includes m "vision") (allModels st) in
  when (0 <? List.length visionModels)%nat
    (let visionModels := sort_desc getModelScore visionModels in
     set_vision (hd_error visionModels)) ;;
  st <- get ;;
  let textModels :=
    filter (fun m => negb (includes m "vision")) (allModels st) in
  when (0 <? List.length textModels)%nat
    (let textModels := sort_desc getModelScore textModels in
     set_text (hd_error textModels)).

(** [async function discoverAvailableModels()] *)
Definition discoverAvailableModels (genAI : GenerativeAI) : Run bool :=
  try_catch
    (try_catch
       (models <- await (listModels genAI) ;;
        match models with
        | Some names => set_allModels names
        | None => ret tt
        end)
       (ret tt) ;;
     st <- get ;;
     (if (List.length (allModels st) =? 0)%nat then
        probeLoop genAI (indexed potentialModels)
      else processListedModels) ;;
     st <- get ;;
     if negb (truthy (text st)) && negb (truthy (vision st)) then ret false
     else ret true)
    (ret false).

End Part001.

Local Close Scope run_scope.

(* ================================================================== *)
(** ** The /api/chat handler (the same text in both server files) *)

Module Chat.
Import Server.

(** A JSON value of the request body, with [undefined] for an absent
    property.  Numbers are only tested for truthiness by the handler. *)
Inductive value : Type :=
| VUndefined
| VNull
| VBool (b : bool)
| VNumber (n : Z)
| VString (s : string)
| VArray (items : list value)
| VObject (props : list (string * value)).

(** Truthiness of a value. *)
Definition truthy (v : value) : bool :=
  match v with
  | VUndefined | VNull => false
  | VBool b => b
  | VNumber n => negb (n =? 0)
  | VString s => Js.truthy_string s
  | VArray _ | VObject _ => true
  end.

(** [Array.isArray(v)] *)
Definition isArray (v : value) : bool :=
  match v with
  | VArray _ => true
  | _ => false
  end.

(** The value bound to [key] in a parsed JSON object: the last binding. *)
Fixpoint lookup (key : string) (props : list (string * value)) : value :=
  match props with
  | [] => VUndefined
  | (k, v) :: rest =>
      match lookup key rest with
      | VUndefined => if String.eqb k key then v else VUndefined
      | found => found
      end
  end.

(** Whether a value can be written into a template literal.  The string
    conversion of an object looks up its [toString]: an object parsed from
    JSON that has a property of that name has no callable one, and the
    conversion throws a [TypeError]; the conversion of an array converts
    each element that is not [null] or [undefined]. *)
Fixpoint stringifiable (v : value) : bool :=
  match v with
  | VArray items =>
      (fix each (l : list value) : bool :=
         match l with
         | [] => true
         | item :: rest => stringifiable item && each rest
         end) items
  | VObject props =>
      negb (existsb (fun p => String.eqb (fst p) "toString") props)
  | _ => true
  end.

(** An error object: what the handler reads of it is its message. *)
Record error := mkError { message : string }.

(** A computation of the handler body: a value or a thrown error. *)
Inductive result (A : Type) : Type :=
| Ok (a : A)
| Throw (e : error).
Arguments Ok {A} a.
Arguments Throw {A} e.

(** One entry of the history handed to [startChat]. *)
Record turn := mkTurn { role : string; parts_text : value }.

(** A request sent to the generative API: [chat.sendMessage(prompt)] on a
    chat started for [model] with [history]. *)
Record upstream_call := mkCall {
  call_model : value;
  call_history : list turn;
  call_prompt : value
}.

(** The runtime around the handler.  Of the engine: the message of the
    [TypeError] raised on a property read of [null] or [undefined], and of
    the one raised when a value cannot be converted to a string.  Of the
    SDK: [genAI.getGenerativeModel({ model })] and
    [genModel.startChat({ history })] ([startChat()] for the empty
    history), which build objects without a request and either succeed
    ([None]) or throw an error with the given message; and the answer of
    the generative API to the request of [chat.sendMessage] (the generated
    text, or the message of the error it fails with). *)
Record Runtime := mkRuntime {
  typeErrorMessage : string;
  conversionErrorMessage : string;
  getGenerativeModel : value -> option string;
  startChat : value -> list turn -> option string;
  sendMessage : upstream_call -> string + string
}.

Inductive body : Type :=
| ErrorBody (error : string) (details : option string)
| ContentBody (text : string) (model : value).

Record response := mkResponse { status : Z; payload : body }.

Section Handler.
Variable rt : Runtime.

(** [v.key]: throws on [null] and [undefined]; an array or a primitive has
    none of the properties the handler reads. *)
Definition prop (v : value) (key : string) : result value :=
  match v with
  | VUndefined | VNull => Throw (mkError (typeErrorMessage rt))
  | VObject props => Ok (lookup key props)
  | _ => Ok VUndefined
  end.

(** [v === s] for a string literal [s]. *)
Definition strict_eq_string (v : value) (s : string) : bool :=
  match v with
  | VString s' => String.eqb s' s
  | _ => false
  end.

(** The loop [for (let i = 0; i < messages.length; i++)] over the messages
    from index [i] on: every message but the last extends [history]; the
    last one sets [prompt] when its role is ['user'], and the prompt is
    then written to the log by [logger.userMessage(prompt)]. *)
Fixpoint formatMessages (messages : list value) (history : list turn)
    (prompt : value) : result (list turn * value) :=
  match messages with
  | [] => Ok (history, prompt)
  | msg :: later =>
      match later with
      | _ :: _ =>
          match prop msg "role", prop msg "content" with
          | Ok r, Ok content =>
              let entry :=
                {| role := if strict_eq_string r "assistant" then "model"
                           else "user";
                   parts_text := content |} in
              formatMessages later (history ++ [entry]) prompt
          | Throw e, _ | _, Throw e => Throw e
          end
      | [] =>
          match prop msg "role" with
          | Ok r =>
              if strict_eq_string r "user" then
                match prop msg "content" with
                | Ok content =>
                    if stringifiable content then Ok (history, content)
                    else Throw (mkError (conversionErrorMessage rt))
                | Throw e => Throw e
                end
              else Ok (history, prompt)
          | Throw e => Throw e
          end
      end
  end.

(** [prompt.length] is read and written into a log line: the read throws
    on [null] and [undefined]; a string or an array has a number there, an
    object what it holds under that name. *)
Definition read_length (prompt : value) : result unit :=
  match prompt with
  | VUndefined | VNull => Throw (mkError (typeErrorMessage rt))
  | VObject props =>
      if stringifiable (lookup "length" props) then Ok tt
      else Throw (mkError (conversionErrorMessage rt))
  | _ => Ok tt
  end.

(** [requestedModel || availableModels.text] *)
Definition modelNameFor (availableModels : AvailableModels)
    (requestedModel : value) : value :=
  if truthy requestedModel then requestedModel
  else match text availableModels with
       | Some t => VString t
       | None => VNull
       end.

(** The [try] block of the handler, with the requests it has sent
    upstream.  After the two checks the handler writes the model name to
    the log, asks the SDK for the model, formats the messages, writes the
    length of the prompt to the log and starts the chat; each of these can
    throw.  The request to the generative API goes out with
    [chat.sendMessage(prompt)]. *)
Definition chatTry (availableModels : AvailableModels) (reqBody : value)
  : list upstream_call * result response :=
  match prop reqBody "model", prop reqBody "messages" with
  | Ok requestedModel, Ok messages =>
      if negb (truthy messages) || negb (isArray messages) then
        ([], Ok {| status := 400;
                   payload := ErrorBody "Invalid messages format" None |})
      else if negb (Js.truthy (text availableModels)) then
        ([], Ok {| status := 503;
                   payload :=
                     ErrorBody "No working text model available"
                       (Some "The server could not find any working Gemini text models") |})
      else
        let modelName := modelNameFor availableModels requestedModel in
        let items :=
          match messages with
          | VArray items => items
          | _ => []
          end in
        if negb (stringifiable modelName) then
          ([], Throw (mkError (conversionErrorMessage rt)))
        else
          match getGenerativeModel rt modelName with
          | Some msg => ([], Throw (mkError msg))
          | None =>
              match formatMessages items [] (VString EmptyString) with
              | Ok (history, prompt) =>
                  match read_length prompt with
                  | Ok _ =>
                      match startChat rt modelName history with
                      | Some msg => ([], Throw (mkError msg))
                      | None =>
                          let call := {| call_model := modelName;
                                         call_history := history;
                                         call_prompt := prompt |} in
                          match sendMessage rt call with
                          | inl generated =>
                              ([call],
                               Ok {| status := 200;
                                     payload :=
                                       ContentBody generated modelName |})
                          | inr msg => ([call], Throw (mkError msg))
                          end
                      end
                  | Throw e => ([], Throw e)
                  end
              | Throw e => ([], Throw e)
              end
          end
  | Throw e, _ | _, Throw e => ([], Throw e)
  end.

(** The [catch] block of the handler. *)
Definition chatCatch (e : error) : response :=
  let errorDetails := message e in
  let statusCode := 500 in
  let (errorDetails, statusCode) :=
    if Js.includes (message e) "API key not valid" then
      ("Invalid API key. Please check your Gemini API key configuration.",
       401)
    else if Js.includes (message e) "not found" then
      ("The requested model was not found. Please check your model name.",
       404)
    else if Js.includes (message e) "quota" then
      ("API quota exceeded. Please try again later or check your usage limits.",
       429)
    else (errorDetails, statusCode) in
  {| status := statusCode;
     payload := ErrorBody "An error occurred while processing your request"
                  (Some errorDetails) |}.

(** [app.post('/api/chat', async (req, res) => ...)]: the response sent and
    the requests made to the generative API, in order. *)
Definition chatHandler (availableModels : AvailableModels) (reqBody : value)
  : response * list upstream_call :=
  match chatTry availableModels reqBody with
  | (calls, Ok r) => (r, calls)
  | (calls, Throw e) => (chatCatch e, calls)
  end.

End Handler.

(** The response is an error response. *)
Definition rejected (r : response) : bool :=
  match payload r with
  | ErrorBody _ _ => true
  | ContentBody _ _ => false
  end.

End Chat.

(* ================================================================== *)
(** ** [src/analytics.js]: the conversation statistics *)

Module Analytics.

Record TokenUsage := mkTokenUsage {
  input : Z;
  output : Z;
  total : Z
}.

(** [characterCounts: { user, ai }] *)
Record CharacterCounts := mkCharacterCounts {
  chars_user : Z;
  chars_ai : Z
}.

(** An entry of [messagesByDate]: [{ user, ai }]. *)
Record DayCounts := mkDayCounts {
  day_user : Z;
  day_ai : Z
}.

(** An entry of [responseTimeHistory]: [{ time, duration }]. *)
Record Sample := mkSample {
  time : string;
  duration : Q
}.

(** [conversationStats].  [messagesByDate] keeps its keys in insertion
    order, as the object does; [lastQuery] is [null] or a [Date.now()]
    reading in milliseconds. *)
Record ConversationStats := mkStats {
  totalMessages : Z;
  userMessages : Z;
  aiMessages : Z;
  avgResponseTime : Q;
  totalResponseTime : Q;
  messagesByDate : list (string * DayCounts);
  tokenUsage : TokenUsage;
  imageCounts : Z;
  characterCounts : CharacterCounts;
  responseTimeHistory : list Sample;
  lastQuery : option Z
}.

(** The zeroed record of the declaration and of [resetStats]. *)
Definition zeroStats : ConversationStats :=
  {| totalMessages := 0;
     userMessages := 0;
     aiMessages := 0;
     avgResponseTime := 0;
     totalResponseTime := 0;
     messagesByDate := [];
     tokenUsage := {| input := 0; output := 0; total := 0 |};
     imageCounts := 0;
     characterCounts := {| chars_user := 0; chars_ai := 0 |};
     responseTimeHistory := [];
     lastQuery := None |}.

Definition TOKENS_PER_CHAR : Q := 25 # 100.

(** [Math.ceil(message.length * TOKENS_PER_CHAR)] *)
Definition estimateTokens (message : string) : Z :=
  Qceiling (inject_Z (Z.of_nat (String.length message)) * TOKENS_PER_CHAR).

(** [iso.split('T')[0]]: the part of [iso] before its first ['T']. *)
Fixpoint split_T_0 (iso : string) : string :=
  match iso with
  | EmptyString => EmptyString
  | String c rest =>
      if Ascii.eqb c "T"%char then EmptyString else String c (split_T_0 rest)
  end.

Definition has_date (today : string) (m : list (string * DayCounts)) : bool :=
  existsb (fun e => String.eqb (fst e) today) m.

(** [if (!m[today]) m[today] = { user: 0, ai: 0 }] *)
Definition ensure_date (today : string) (m : list (string * DayCounts))
  : list (string * DayCounts) :=
  if has_date today m then m
  else (m ++ [(today, {| day_user := 0; day_ai := 0 |})])%list.

(** [m[today].user++] and [m[today].ai++] *)
Definition update_date (today : string) (f : DayCounts -> DayCounts)
    (m : list (string * DayCounts)) : list (string * DayCounts) :=
  map (fun e => if String.eqb (fst e) today then (fst e, f (snd e)) else e) m.

Definition incr_user (d : DayCounts) : DayCounts :=
  {| day_user := day_user d + 1; day_ai := day_ai d |}.

Definition incr_ai (d : DayCounts) : DayCounts :=
  {| day_user := day_user d; day_ai := day_ai d + 1 |}.

(** Truthiness of [lastQuery]: [null] and [0] are falsy. *)
Definition pending (q : option Z) : option Z :=
  match q with
  | Some t => if t =? 0 then None else Some t
  | None => None
  end.

(** [resetStats()]; [saveStats] and [updateUI] write the record out and
    leave it as it is. *)
Definition resetStats (s : ConversationStats) : ConversationStats :=
  zeroStats.

(** [trackUserMessage(message)], with the readings of the clock:
    [iso] for [new Date().toISOString()] and [now] for [Date.now()]. *)
Definition trackUserMessage (message : string) (iso : string) (now : Z)
    (s : ConversationStats) : ConversationStats :=
  let estimatedTokens := estimateTokens message in
  let today := split_T_0 iso in
  {| totalMessages := totalMessages s + 1;
     userMessages := userMessages s + 1;
     aiMessages := aiMessages s;
     avgResponseTime := avgResponseTime s;
     totalResponseTime := totalResponseTime s;
     messagesByDate :=
       update_date today incr_user (ensure_date today (messagesByDate s));
     tokenUsage :=
       {| input := input (tokenUsage s) + estimatedTokens;
          output := output (tokenUsage s);
          total := total (tokenUsage s) + estimatedTokens |};
     imageCounts := imageCounts s;
     characterCounts :=
       {| chars_user := chars_user (characterCounts s)
                        + Z.of_nat (String.length message);
          chars_ai := chars_ai (characterCounts s) |};
     responseTimeHistory := responseTimeHistory s;
     lastQuery := Some now |}.

(** [trackImageUpload()] *)
Definition trackImageUpload (s : ConversationStats) : ConversationStats :=
  {| totalMessages := totalMessages s;
     userMessages := userMessages s;
     aiMessages := aiMessages s;
     avgResponseTime := avgResponseTime s;
     totalResponseTime := totalResponseTime s;
     messagesByDate := messagesByDate s;
     tokenUsage := tokenUsage s;
     imageCounts := imageCounts s + 1;
     characterCounts := characterCounts s;
     responseTimeHistory := responseTimeHistory s;
     lastQuery := lastQuery s |}.

(** [trackAIResponse(response)], with the readings of the clock: [now]
    for [Date.now()], [stamp] for the [toISOString()] of the sample and
    [iso] for the one of the date bucket. *)
Definition trackAIResponse (response : string) (now : Z) (stamp iso : string)
    (s : ConversationStats) : ConversationStats :=
  let '(history, totalTime, avgTime) :=
    match pending (lastQuery s) with
    | Some asked =>
        let responseTime := inject_Z (now - asked) / inject_Z 1000 in
        let history :=
          (responseTimeHistory s
           ++ [{| time := stamp; duration := responseTime |}])%list in
        let totalTime := totalResponseTime s + responseTime in
        (history, totalTime,
         totalTime / inject_Z (Z.of_nat (List.length history)))
    | None =>
        (responseTimeHistory s, totalResponseTime s, avgResponseTime s)
    end%Q in
  let estimatedTokens := estimateTokens response in
  let today := split_T_0 iso in
  {| totalMessages := totalMessages s + 1;
     userMessages := userMessages s;
     aiMessages := aiMessages s + 1;
     avgResponseTime := avgTime;
     totalResponseTime := totalTime;
     messagesByDate :=
       update_date today incr_ai (ensure_date today (messagesByDate s));
     tokenUsage :=
       {| input := input (tokenUsage s);
          output := output (tokenUsage s) + estimatedTokens;
          total := total (tokenUsage s) + estimatedTokens |};
     imageCounts := imageCounts s;
     characterCounts :=
       {| chars_user := chars_user (characterCounts s);
          chars_ai := chars_ai (characterCounts s)
                      + Z.of_nat (String.length response) |};
     responseTimeHistory := history;
     lastQuery := None |}.

(** The operations of the public API that change the record. *)
Inductive operation : Type :=
| TrackUserMessage (message iso : string) (now : Z)
| TrackAIResponse (response : string) (now : Z) (stamp iso : string)
| TrackImageUpload
| ResetStats.

Definition apply (op : operation) (s : ConversationStats)
  : ConversationStats :=
  match op with
  | TrackUserMessage message iso now => trackUserMessage message iso now s
  | TrackAIResponse response now stamp iso =>
      trackAIResponse response now stamp iso s
  | TrackImageUpload => trackImageUpload s
  | ResetStats => resetStats s
  end.

End Analytics.

(* ================================================================== *)
(** ** Notions used to state the properties *)

Module Reading.
Import Js Server.

(** The generation the first if-chain of [getModelScore] reads off an
    identifier; the chain tests the same markers in the same order in both
    server files. *)
Inductive generation : Type :=
| Gen20
| Gen15
| Gen10
| GenUnmarked.

Definition generationOf (modelName : string) : generation :=
  if includes modelName "2.0" then Gen20
  else if includes modelName "1.5" then Gen15
  else if includes modelName "1.0" then Gen10
  else GenUnmarked.

(** The selection as the specification words it, by scoring the whole
    discovered set at once: first the highest score found in the list ... *)
Fixpoint top_score (score : string -> Z) (l : list string) : option Z :=
  match l with
  | [] => None
  | m :: rest =>
      Some (match top_score score rest with
            | None => score m
            | Some t => Z.max (score m) t
            end)
  end.

(** ... then the first model of the list, in discovery order, that has
    this score (the first-discovered model wins ties). *)
Definition select_best (score : string -> Z) (l : list string)
  : option string :=
  match top_score score l with
  | None => None
  | Some t => find (fun m => score m =? t) l
  end.

(** The incumbent [cur] stays unless [m] scores strictly higher. *)
Definition keep_better (score : string -> Z) (cur m : string) : string :=
  if score m >? score cur then m else cur.

Section Probes.
Variable genAI : GenerativeAI.

(** The liveness request of a positioned candidate succeeds. *)
Definition alive (c : nat * string) : bool :=
  match generateText genAI (fst c) with
  | Returned _ => true
  | Thrown => false
  end.

(** The multimodal request of a positioned candidate succeeds. *)
Definition sees_images (c : nat * string) : bool :=
  match generateImage genAI (fst c) with
  | Returned _ => true
  | Thrown => false
  end.

(** The models discovered among the candidates, in discovery order. *)
Definition discovered (cands : list (nat * string)) : list string :=
  map snd (filter alive cands).

(** The discovered models that handle images: by name, or by a
    successful multimodal request. *)
Definition vision_capable (c : nat * string) : bool :=
  alive c && (includes (snd c) "vision" || sees_images c).

Definition discovered_vision (cands : list (nat * string)) : list string :=
  map snd (filter vision_capable cands).

(** The models the vision slot of [part_000] chooses from: the first
    discovered model that handles images, and the vision-named ones
    discovered after it. *)
Definition vision_pool (cands : list (nat * string)) : list string :=
  match discovered_vision cands with
  | [] => []
  | first :: later => first :: filter (fun m => includes m "vision") later
  end.

End Probes.

(** The listing yields no model: [listModels] throws, or resolves without
    a [models] array or with an empty one. *)
Definition listing_fails (genAI : GenerativeAI) : Prop :=
  match listModels genAI with
  | Thrown => True
  | Returned None => True
  | Returned (Some names) => names = []
  end.

(** The message counters add up. *)
Definition counts_consistent (s : Analytics.ConversationStats) : Prop :=
  Analytics.totalMessages s
  = Analytics.userMessages s + Analytics.aiMessages s.

(** The stored average is the stored total over the number of samples,
    whenever there is a sample. *)
Definition average_consistent (s : Analytics.ConversationStats) : Prop :=
  Analytics.responseTimeHistory s <> [] ->
  Analytics.avgResponseTime s
  = (Analytics.totalResponseTime s
     / inject_Z (Z.of_nat (List.length (Analytics.responseTimeHistory s))))%Q.

Definition stats_invariant (s : Analytics.ConversationStats) : Prop :=
  counts_consistent s /\ average_consistent s.

(** The token counters add up. *)
Definition tokens_consistent (s : Analytics.ConversationStats) : Prop :=
  Analytics.total (Analytics.tokenUsage s)
  = Analytics.input (Analytics.tokenUsage s)
    + Analytics.output (Analytics.tokenUsage s).

(** A slot is [null] or holds a non-empty identifier. *)
Definition settled (slot : option string) : Prop :=
  match slot with
  | Some s => s <> EmptyString
  | None => True
  end.

End Reading.

(* ================================================================== *)
(** ** Concrete runs *)

Module Scenario.
Import Server.

(** An SDK without model listing whose fallback candidates all answer with
    an error. *)
Definition unreachable : GenerativeAI :=
  {| listModels := Thrown;
     generateText := fun _ => Thrown;
     generateImage := fun _ => Thrown |}.

(** An SDK without model listing where, of the catalog of [part_000], only
    "gemini-2.0-flash" (positions 7 and 11) and "gemini-2.0-pro"
    (position 10) answer, and both accept an image. *)
Definition two_multimodal : GenerativeAI :=
  {| listModels := Thrown;
     generateText :=
       fun i => if ((i =? 7) || (i =? 10) || (i =? 11))%nat
                then Returned tt else Thrown;
     generateImage := fun _ => Returned tt |}.

(** A runtime whose SDK builds every model and chat session and whose
    generative API answers every request with "Hello". *)
Definition answering : Chat.Runtime :=
  {| Chat.typeErrorMessage := "Cannot read properties of undefined";
     Chat.conversionErrorMessage := "Cannot convert object to primitive value";
     Chat.getGenerativeModel := fun _ => None;
     Chat.startChat := fun _ _ => None;
     Chat.sendMessage := fun _ => inl "Hello" |}.

(** Discovery has selected "gemini-2.0-flash" as the text model. *)
Definition flash_selected : AvailableModels :=
  {| text := Some "gemini-2.0-flash";
     vision := None;
     allModels := ["gemini-2.0-flash"] |}.

(** The request body [{ "messages": [] }]. *)
Definition empty_messages : Chat.value :=
  Chat.VObject [("messages", Chat.VArray [])].

End Scenario.

(* ================================================================== *)
(** ** The image upload and the /api/analyze-image handlers *)

Module Image.
Import Server.

(** [req.file] as multer's memory storage provides it. *)
Record File := mkFile {
  originalname : string;
  mimetype : string;
  size : Z;
  buffer : string
}.

(** The [fileFilter] of the multer configuration: [None] for
    [cb(null, true)], the message of the error for
    [cb(new Error(...), false)]. *)
Definition fileFilter (file : File) : option string :=
  if negb (String.prefix "image/" (mimetype file)) then
    Some "Only image files are allowed!"
  else None.

(** The error [upload] hands to its callback. *)
Record UploadError := mkUploadError {
  code : option string;
  upload_message : string
}.

Inductive body : Type :=
| ErrorBody (error : string) (details : option string)
    (troubleshooting : option (list string))
| ContentBody (text : string) (model : string).

Record response := mkResponse { status : Z; payload : body }.

(** What a middleware does: it answers, or calls [next()]. *)
Inductive middleware : Type :=
| Respond (r : response)
| Next.

(** [uploadMiddleware], on the error [upload] reports, if any. *)
Definition uploadMiddleware (err : option UploadError) : middleware :=
  match err with
  | Some e =>
      match code e with
      | Some c =>
          if String.eqb c "LIMIT_FILE_SIZE" then
            Respond {| status := 400;
                       payload := ErrorBody "File too large"
                                    (Some "Maximum file size is 5MB") None |}
          else
            Respond {| status := 400;
                       payload := ErrorBody "File upload failed"
                                    (Some (upload_message e)) None |}
      | None =>
          Respond {| status := 400;
                     payload := ErrorBody "File upload failed"
                                  (Some (upload_message e)) None |}
      end
  | None => Next
  end.

(** A part of the content sent to the model: the prompt, or the inline
    image [{ inlineData: { data, mimeType } }]. *)
Inductive part : Type :=
| TextPart (prompt : string)
| ImagePart (data mimeType : string).

(** A request [model.generateContent(parts)] on the model named
    [call_model]. *)
Record image_call := mkCall {
  call_model : string;
  call_parts : list part
}.

(** The runtime around the handlers: base64 encoding of a buffer,
    [String.prototype.trim], and the answer of the generative API to a
    request (the text of the response, or the message of the error). *)
Record Runtime := mkRuntime {
  toBase64 : string -> string;
  trim : string -> string;
  generateContent : image_call -> string + string
}.

(** [req.body.prompt || "What's in this image?"], where [req.body] holds
    the text fields of the form: the field is absent or a string. *)
Definition promptOrDefault (promptField : option string) : string :=
  match promptField with
  | Some p => if Js.truthy_string p then p else "What's in this image?"
  | None => "What's in this image?"
  end.

(** The slot [availableModels.vision] read as a string, once the handler
    has found it truthy. *)
Definition visionName (availableModels : AvailableModels) : string :=
  match vision availableModels with
  | Some v => v
  | None => EmptyString
  end.

(** The double quote character, for the messages that quote a name. *)
Definition dquote : string := String (Ascii.ascii_of_nat 34) EmptyString.

End Image.

(** *** [src/unnamed/part_000] *)

Module Image000.
Import Server Image.

Section Handler.
Variable rt : Runtime.

(** [!text || text.trim() === ''] *)
Definition emptyAnswer (text : string) : bool :=
  negb (Js.truthy_string text) || String.eqb (trim rt text) EmptyString.

(** The [catch (apiError)] block: the error it throws in turn. *)
Definition apiCatch (file : File) (availableModels : AvailableModels)
    (apiError : Chat.error) : Chat.error :=
  let msg := Chat.message apiError in
  if Js.includes msg "exceeds the maximum size" then
    Chat.mkError "Image size too large. Per documentation, inline images should be under 20MB. For larger images, use the File API."
  else if Js.includes msg "not supported" || Js.includes msg "invalid format"
  then
    Chat.mkError
      ("Image format not supported. Supported formats include PNG, JPEG, WEBP, HEIC, and HEIF. Current format: "
       ++ mimetype file)
  else if Js.includes msg "blocked" || Js.includes msg "safety" then
    Chat.mkError "Content blocked by safety filters. The image may contain inappropriate content."
  else if Js.includes msg "not found" || Js.includes msg "does not exist"
  then
    Chat.mkError
      ("Model " ++ dquote ++ visionName availableModels ++ dquote
       ++ " not found or does not support vision. Try using a different model.")
  else if Js.includes msg "quota" || Js.includes msg "rate limit" then
    Chat.mkError "API quota or rate limit exceeded. Please try again later."
  else if Js.includes msg "permission" then
    Chat.mkError "Permission denied. Your API key may not have access to vision models."
  else if Js.includes msg "invalid image" then
    Chat.mkError
      ("Invalid image: " ++ msg
       ++ ". Please try a different image format or encoding.")
  else Chat.mkError ("API error: " ++ msg).

(** The inner [try { ... } catch (apiError) { ... }]: the generated text,
    or the error thrown on, with the requests sent upstream. *)
Definition askModel (file : File) (availableModels : AvailableModels)
    (prompt : string) : list image_call * Chat.result string :=
  let imagePart :=
    ImagePart (toBase64 rt (buffer file)) (mimetype file) in
  let first := {| call_model := visionName availableModels;
                  call_parts := [TextPart prompt; imagePart] |} in
  let second := {| call_model := visionName availableModels;
                   call_parts := [imagePart; TextPart prompt] |} in
  match generateContent rt first with
  | inl text =>
      if emptyAnswer text then
        match generateContent rt second with
        | inl text =>
            if emptyAnswer text then
              ([first; second],
               Chat.Throw
                 (apiCatch file availableModels
                    (Chat.mkError "Received empty response from API even after retry")))
            else ([first; second], Chat.Ok text)
        | inr msg =>
            ([first; second],
             Chat.Throw (apiCatch file availableModels (Chat.mkError msg)))
        end
      else ([first], Chat.Ok text)
  | inr msg =>
      ([first],
       Chat.Throw (apiCatch file availableModels (Chat.mkError msg)))
  end.

(** The outer [try] block of the handler. *)
Definition analyzeTry (availableModels : AvailableModels)
    (file : option File) (promptField : option string)
  : list image_call * Chat.result response :=
  match file with
  | None =>
      ([], Chat.Ok {| status := 400;
                      payload := ErrorBody "No image uploaded" None None |})
  | Some file =>
      if negb (Js.truthy (vision availableModels)) then
        ([], Chat.Ok
               {| status := 503;
                  payload :=
                    ErrorBody "No working vision model available"
                      (Some "The server could not find any working Gemini vision models. This could be due to:")
                      (Some
                         [ "Your API key might not have access to vision models";
                           "Vision models might not be available in your region";
                           "You might need to enable vision models in your Google AI Studio account";
                           "There might be a temporary outage of vision services" ]) |})
      else
        let prompt := promptOrDefault promptField in
        match askModel file availableModels prompt with
        | (calls, Chat.Ok text) =>
            (calls, Chat.Ok {| status := 200;
                               payload :=
                                 ContentBody text
                                   (visionName availableModels) |})
        | (calls, Chat.Throw e) => (calls, Chat.Throw e)
        end
  end.

(** The outer [catch] block of the handler. *)
Definition analyzeCatch (e : Chat.error) : response :=
  {| status := 500;
     payload :=
       ErrorBody "Image analysis failed" (Some (Chat.message e))
         (Some
            [ "Check that your API key has access to vision models";
              "Verify the image format is supported (PNG, JPEG, WEBP, HEIC, HEIF)";
              "Try a smaller or different image";
              "Make sure the image content complies with content safety policies" ]) |}.

(** The handler of [app.post('/api/analyze-image', uploadMiddleware, ...)]:
    the response sent and the requests made to the generative API. *)
Definition analyzeImage (availableModels : AvailableModels)
    (file : option File) (promptField : option string)
  : response * list image_call :=
  match analyzeTry availableModels file promptField with
  | (calls, Chat.Ok r) => (r, calls)
  | (calls, Chat.Throw e) => (analyzeCatch e, calls)
  end.

(** The route: [uploadMiddleware], then the handler when it calls
    [next()]. *)
Definition analyzeRoute (availableModels : AvailableModels)
    (err : option UploadError) (file : option File)
    (promptField : option string) : response * list image_call :=
  match uploadMiddleware err with
  | Respond r => (r, [])
  | Next => analyzeImage availableModels file promptField
  end.

End Handler.
End Image000.

(** *** [src/unnamed/part_001] *)

Module Image001.
Import Server Image.

Section Handler.
Variable rt : Runtime.

(** The [catch (apiError)] block: the error it throws in turn. *)
Definition apiCatch (file : File) (apiError : Chat.error) : Chat.error :=
  let msg := Chat.message apiError in
  if Js.includes msg "exceeds the maximum size" then
    Chat.mkError "Image size too large for the API. Please use a smaller image."
  else if Js.includes msg "not supported" then
    Chat.mkError
      ("Image format not supported. Supported formats include JPEG, PNG, WEBP, and GIF. Current format: "
       ++ mimetype file)
  else if Js.includes msg "image" then
    Chat.mkError ("Image processing error: " ++ msg)
  else apiError.

(** The outer [try] block of the handler. *)
Definition analyzeTry (availableModels : AvailableModels)
    (file : option File) (promptField : option string)
  : list image_call * Chat.result response :=
  match file with
  | None =>
      ([], Chat.Ok {| status := 400;
                      payload := ErrorBody "No image uploaded" None None |})
  | Some file =>
      if negb (Js.truthy (vision availableModels)) then
        ([], Chat.Ok
               {| status := 503;
                  payload :=
                    ErrorBody "No working vision model available"
                      (Some "The server could not find any working Gemini vision models")
                      None |})
      else
        let prompt := promptOrDefault promptField in
        let imagePart :=
          ImagePart (toBase64 rt (buffer file)) (mimetype file) in
        let call := {| call_model := visionName availableModels;
                       call_parts := [TextPart prompt; imagePart] |} in
        match generateContent rt call with
        | inl text =>
            ([call], Chat.Ok {| status := 200;
                                payload :=
                                  ContentBody text
                                    (visionName availableModels) |})
        | inr msg =>
            ([call], Chat.Throw (apiCatch file (Chat.mkError msg)))
        end
  end.

(** The outer [catch] block of the handler. *)
Definition analyzeCatch (e : Chat.error) : response :=
  let errorDetails := Chat.message e in
  let statusCode := 500 in
  let (errorDetails, statusCode) :=
    if Js.includes (Chat.message e) "API key not valid" then
      ("Invalid API key. Please check your Gemini API key configuration.",
       401)
    else if Js.includes (Chat.message e) "image" then
      ("Image processing error: " ++ Chat.message e, 400)
    else if Js.includes (Chat.message e) "not found" then
      ("The vision model was not found or is not available.", 404)
    else if Js.includes (Chat.message e) "quota" then
      ("API quota exceeded. Please try again later or check your usage limits.",
       429)
    else (errorDetails, statusCode) in
  {| status := statusCode;
     payload := ErrorBody "An error occurred while processing your image"
                  (Some errorDetails) None |}.

(** The handler of [app.post("/api/analyze-image", uploadMiddleware, ...)]:
    the response sent and the requests made to the generative API. *)
Definition analyzeImage (availableModels : AvailableModels)
    (file : option File) (promptField : option string)
  : response * list image_call :=
  match analyzeTry availableModels file promptField with
  | (calls, Chat.Ok r) => (r, calls)
  | (calls, Chat.Throw e) => (analyzeCatch e, calls)
  end.

(** The route: [uploadMiddleware], then the handler when it calls
    [next()]. *)
Definition analyzeRoute (availableModels : AvailableModels)
    (err : option UploadError) (file : option File)
    (promptField : option string) : response * list image_call :=
  match uploadMiddleware err with
  | Respond r => (r, [])
  | Next => analyzeImage availableModels file promptField
  end.

End Handler.
End Image001.

(* ================================================================== *)
(** ** Start-up: the API key and its test (the same text in both files) *)

Module ApiKey.

Inductive level : Type :=
| INFO
| WARN
| ERROR.

Definition fallbackKey : string := "your-api-key-here".

(** [envKey.length > 8 ? `${first four}...${last four}` : "****"] *)
Definition maskedKey (envKey : string) : string :=
  if (8 <? String.length envKey)%nat then
    String.substring 0 4 envKey ++ "..."
    ++ String.substring (String.length envKey - 4) 4 envKey
  else "****".

(** [function getApiKey()] on the value of [process.env.GOOGLE_API_KEY]:
    the key returned and the lines logged. *)
Definition getApiKey (envKey : option string)
  : string * list (level * string) :=
  match envKey with
  | Some envKey =>
      if Js.truthy_string envKey then
        (envKey,
         ((INFO, "Using API key from environment variable: "
                 ++ maskedKey envKey)
          :: (if (String.length envKey <? 10)%nat
                 || String.eqb envKey "your-api-key-here"
              then [(WARN, "The API key from environment looks suspicious (too short or default value)")]
              else [])))
      else
        (fallbackKey,
         ((WARN, "No API key found in environment variables, using fallback key")
          :: (if String.eqb fallbackKey "your-api-key-here" then
                [(ERROR, "The fallback API key is still set to the default placeholder.");
                 (ERROR, "Please set a valid API key either as an environment variable or in the code.")]
              else [])))
  | None =>
      (fallbackKey,
       ((WARN, "No API key found in environment variables, using fallback key")
        :: (if String.eqb fallbackKey "your-api-key-here" then
              [(ERROR, "The fallback API key is still set to the default placeholder.");
               (ERROR, "Please set a valid API key either as an environment variable or in the code.")]
            else [])))
  end.

(** [apiKeySet] of the /api/test response. *)
Definition apiKeySet (API_KEY : string) : bool :=
  negb (String.eqb API_KEY "your-api-key-here")
  && (10 <? String.length API_KEY)%nat.

(** [key_configured] of the /api/diagnostics response. *)
Definition key_configured (API_KEY : string) : bool :=
  negb (String.eqb API_KEY "your-api-key-here").

End ApiKey.

Module Startup.
Import Server.

Local Open Scope run_scope.

(** [async function testApiKey()], over the discovery function of the
    file; the [catch] block only logs before it returns [false]. *)
Definition testApiKey (discoverAvailableModels : GenerativeAI -> Run bool)
    (genAI : GenerativeAI) : Run bool :=
  try_catch
    (modelsFound <- discoverAvailableModels genAI ;;
     if (modelsFound : bool) then ret true else throw)
    (ret false).

Definition testApiKey000 : GenerativeAI -> Run bool :=
  testApiKey Part000.discoverAvailableModels.

Definition testApiKey001 : GenerativeAI -> Run bool :=
  testApiKey Part001.discoverAvailableModels.

End Startup.

(* ================================================================== *)
(** ** [src/public/index.html]: what the page sends to the server
    (the file holds the page with its script, then the client script) *)

Module Client.
Import Chat.

(** An entry [{ role, content }] of [conversationHistory], as the server
    parses it. *)
Definition message (entry : string * string) : value :=
  VObject [("role", VString (fst entry)); ("content", VString (snd entry))].

(** The entry [conversationHistory] starts with in both scripts. *)
Definition greeting : string * string :=
  ("assistant",
   "Hello! I'm your AI assistant. I can answer questions and analyze images. Try uploading a photo!").

(** [conversationHistory] when [sendTextMessage] posts it: the greeting,
    the entries pushed since, and the text just typed, pushed with the
    role "user". *)
Definition posted (conversation : list (string * string)) (typed : string)
  : list (string * string) :=
  (greeting :: conversation ++ [("user", typed)])%list.

(** The body [sendTextMessage] posts to /api/chat:
    [{ model, max_tokens: 1000, messages: conversationHistory }] *)
Definition chatRequestBodyWith (model : string)
    (conversationHistory : list (string * string)) : value :=
  VObject [("model", VString model);
           ("max_tokens", VNumber 1000);
           ("messages", VArray (map message conversationHistory))].

(** The script inside the page names the model "gemini-2.0-flash". *)
Definition inlineChatRequestBody
  : list (string * string) -> value :=
  chatRequestBodyWith "gemini-2.0-flash".

(** The client script names the model "gemini-pro". *)
Definition chatRequestBody : list (string * string) -> value :=
  chatRequestBodyWith "gemini-pro".

(** The checks of [handleImageUpload] on the chosen file: its type must
    match the pattern "image.*", which any string containing "image"
    does, and its size must not exceed 5MB. *)
Definition imageSelected (type : string) (size : Z) : bool :=
  if negb (Js.includes type "image") then false
  else if size >? 5 * 1024 * 1024 then false
  else true.

End Client.

(* ================================================================== *)
(** ** Notions used to state further properties *)

Module Notions.
Import Js Server Reading.

(** Newer generations rank higher. *)
Definition generation_rank (g : generation) : Z :=
  match g with
  | Gen20 => 3
  | Gen15 => 2
  | Gen10 => 1
  | GenUnmarked => 0
  end.

(** Two identifiers carry the same tier and vision markers. *)
Definition same_tier_and_vision (a b : string) : Prop :=
  includes a "ultra" = includes b "ultra" /\
  includes a "pro" = includes b "pro" /\
  includes a "flash" = includes b "flash" /\
  includes a "vision" = includes b "vision".

(** Every scoring marker found in [a] is found in [b]. *)
Definition markers_kept (a b : string) : Prop :=
  forall marker,
    In marker ["2.0"; "1.5"; "1.0"; "ultra"; "pro"; "flash"; "vision"] ->
    includes a marker = true -> includes b marker = true.

(** The history entry the chat handler builds from a message. *)
Definition turn_of (entry : string * string) : Chat.turn :=
  {| Chat.role := if String.eqb (fst entry) "assistant" then "model"
                  else "user";
     Chat.parts_text := Chat.VString (snd entry) |}.

(** The states of the statistics that the operations of the public API
    reach from the zeroed record. *)
Inductive reachable : Analytics.ConversationStats -> Prop :=
| reach_zero : reachable Analytics.zeroStats
| reach_step (op : Analytics.operation) (s : Analytics.ConversationStats) :
    reachable s -> reachable (Analytics.apply op s).

(** The sum of one column of the per-day table. *)
Definition sum_days (column : Analytics.DayCounts -> Z)
    (m : list (string * Analytics.DayCounts)) : Z :=
  fold_right (fun e acc => column (snd e) + acc) 0 m.

(** The durations of the samples, added up in the order of recording. *)
Definition sum_durations (history : list Analytics.Sample) : Q :=
  fold_left Qplus (map Analytics.duration history) 0%Q.

(** One when a query is waiting for its response, zero otherwise. *)
Definition waiting (s : Analytics.ConversationStats) : Z :=
  match Analytics.pending (Analytics.lastQuery s) with
  | Some _ => 1
  | None => 0
  end.

(** The two requests the image handlers send for a file and a prompt:
    the prompt followed by the image, and the image followed by the
    prompt. *)
Definition promptFirst (rt : Image.Runtime) (models : AvailableModels)
    (file : Image.File) (prompt : string) : Image.image_call :=
  {| Image.call_model := Image.visionName models;
     Image.call_parts :=
       [Image.TextPart prompt;
        Image.ImagePart (Image.toBase64 rt (Image.buffer file))
          (Image.mimetype file)] |}.

Definition imageFirst (rt : Image.Runtime) (models : AvailableModels)
    (file : Image.File) (prompt : string) : Image.image_call :=
  {| Image.call_model := Image.visionName models;
     Image.call_parts :=
       [Image.ImagePart (Image.toBase64 rt (Image.buffer file))
          (Image.mimetype file);
        Image.TextPart prompt] |}.

End Notions.

(* ================================================================== *)
(** ** Further concrete runs *)

Module Scenario2.
Import Server.

(** A vision runtime whose API answers the prompt-first request with an
    empty text and the image-first request with "A cat". *)
Definition shy : Image.Runtime :=
  {| Image.toBase64 := fun b => b;
     Image.trim := fun s => s;
     Image.generateContent :=
       fun c =>
         match Image.call_parts c with
         | Image.TextPart _ :: _ => inl EmptyString
         | _ => inl "A cat"
         end |}.

(** A vision runtime whose API rejects every request as too large. *)
Definition oversize : Image.Runtime :=
  {| Image.toBase64 := fun b => b;
     Image.trim := fun s => s;
     Image.generateContent :=
       fun _ => inr "Request payload exceeds the maximum size" |}.

(** A vision runtime whose API answers every request with an empty
    text. *)
Definition mute : Image.Runtime :=
  {| Image.toBase64 := fun b => b;
     Image.trim := fun s => s;
     Image.generateContent := fun _ => inl EmptyString |}.

Definition photo : Image.File :=
  {| Image.originalname := "cat.png";
     Image.mimetype := "image/png";
     Image.size := 3;
     Image.buffer := "abc" |}.

(** Discovery has selected "gemini-pro-vision" for both slots. *)
Definition vision_selected : AvailableModels :=
  {| text := Some "gemini-pro-vision";
     vision := Some "gemini-pro-vision";
     allModels := ["gemini-pro-vision"] |}.

(** An SDK without model listing where only "gemini-pro-vision" answers
    (position 5 of the catalog of [part_000], 3 of that of [part_001]). *)
Definition only_pro_vision000 : GenerativeAI :=
  {| listModels := Thrown;
     generateText := fun i => if (i =? 5)%nat then Returned tt else Thrown;
     generateImage := fun _ => Thrown |}.

Definition only_pro_vision001 : GenerativeAI :=
  {| listModels := Thrown;
     generateText := fun i => if (i =? 3)%nat then Returned tt else Thrown;
     generateImage := fun _ => Thrown |}.

(** A session of the page: a question, its answer, an image upload. *)
Definition session : Analytics.ConversationStats :=
  Analytics.apply Analytics.TrackImageUpload
    (Analytics.apply
       (Analytics.TrackAIResponse "hi there" 2500
          "2024-05-01T10:00:02.500Z" "2024-05-01T10:00:02.500Z")
       (Analytics.apply
          (Analytics.TrackUserMessage "hello" "2024-05-01T10:00:00.000Z" 1000)
          Analytics.zeroStats)).

(** A runtime whose generative API fails with a quota error. *)
Definition exhausted : Chat.Runtime :=
  {| Chat.typeErrorMessage := "Cannot read properties of undefined";
     Chat.conversionErrorMessage := "Cannot convert object to primitive value";
     Chat.getGenerativeModel := fun _ => None;
     Chat.startChat := fun _ _ => None;
     Chat.sendMessage := fun _ => inr "quota exceeded for this project" |}.

(** A runtime whose SDK checks what it is given: it calls [includes] on
    the model name, which only a string or an array has, and refuses a
    history whose first turn does not have the role "user". *)
Definition validating : Chat.Runtime :=
  {| Chat.typeErrorMessage := "Cannot read properties of undefined";
     Chat.conversionErrorMessage := "Cannot convert object to primitive value";
     Chat.getGenerativeModel :=
       fun model =>
         match model with
         | Chat.VString _ | Chat.VArray _ => None
         | _ => Some "modelParams.model.includes is not a function"
         end;
     Chat.startChat :=
       fun _ history =>
         match history with
         | [] => None
         | first :: _ =>
             if String.eqb (Chat.role first) "user" then None
             else Some "First content should be with role 'user', got model"
         end;
     Chat.sendMessage := fun _ => inl "Hello" |}.

(** The request body [{ "model": 123, "messages": [] }]. *)
Definition numeric_model : Chat.value :=
  Chat.VObject [("model", Chat.VNumber 123);
                ("messages", Chat.VArray [])].

(** The request body [{ "model": { "toString": 1 }, "messages": [] }]. *)
Definition unprintable_model : Chat.value :=
  Chat.VObject
    [("model", Chat.VObject [("toString", Chat.VNumber 1)]);
     ("messages", Chat.VArray [])].

(** A request naming no model whose conversation starts with the user. *)
Definition user_first : Chat.value :=
  Chat.VObject
    [("messages",
      Chat.VArray
        (map Client.message
           ([("user", "hi"); ("assistant", "hello")] ++ [("user", "bye")])))].

(** A request naming no model whose conversation starts with the
    assistant. *)
Definition assistant_first : Chat.value :=
  Chat.VObject
    [("messages",
      Chat.VArray
        (map Client.message ([("assistant", "hello")] ++ [("user", "bye")])))].

(** A request whose second message is [null]. *)
Definition null_entry : Chat.value :=
  Chat.VObject
    [("messages", Chat.VArray [Client.message ("user", "hi"); Chat.VNull])].

(** The request body [{ "model": 123, "messages": [null] }]. *)
Definition numeric_model_null_entry : Chat.value :=
  Chat.VObject [("model", Chat.VNumber 123);
                ("messages", Chat.VArray [Chat.VNull])].

End Scenario2.


(* ================================================================== *)
(** * Properties *)

Import Js Server Reading.

(** ** Substring search *)

Lemma prefix_append (p x s : string) :
  String.prefix p x = true -> String.prefix p (x ++ s) = true.
Proof.
  revert x; induction p as [|c p IH]; intros x H.
  - destruct (x ++ s); reflexivity.
  - destruct x as [|d x]; simpl in *; [discriminate|].
    destruct (Ascii.ascii_dec c d); [auto | discriminate].
Qed.

Lemma includes_append (x s needle : string) :
  includes x needle = true -> includes (x ++ s) needle = true.
Proof.
  induction x as [|c x IH]; simpl; intros H.
  - rewrite orb_false_r in H. destruct needle; [|discriminate].
    destruct s; reflexivity.
  - apply orb_true_iff in H. apply orb_true_iff. destruct H as [H|H].
    + left. exact (prefix_append needle (String c x) s H).
    + right. auto.
Qed.

Lemma includes_suffix_vision (x : string) :
  includes (x ++ "-vision") "vision" = true.
Proof.
  induction x as [|c x IH].
  - reflexivity.
  - change (String c x ++ "-vision") with (String c (x ++ "-vision")).
    simpl includes. rewrite IH. apply orb_true_r.
Qed.

(** Case analysis on a marker test of [x] and of [x ++ s]: the test of
    the longer string holds whenever the one of [x] does. *)
Ltac marker_cases x s m :=
  let H := fresh "H" in
  destruct (includes x m) eqn:H;
  [ rewrite ?(includes_append x s m H)
  | destruct (includes (x ++ s) m) ].

(** ** The scorer *)

(** C6: appending "-vision" to an identifier never lowers its score, with
    the scorer of either server file. *)
Theorem vision_suffix_never_lowers_score (x : string) :
  Part000.getModelScore (x ++ "-vision") >= Part000.getModelScore x /\
  Part001.getModelScore (x ++ "-vision") >= Part001.getModelScore x.
Proof.
  unfold Part000.getModelScore, Part001.getModelScore.
  rewrite (includes_suffix_vision x).
  split.
  - marker_cases x "-vision" "2.0"; marker_cases x "-vision" "1.5";
      marker_cases x "-vision" "1.0"; marker_cases x "-vision" "pro";
      marker_cases x "-vision" "flash";
      destruct (includes x "vision"); lia.
  - marker_cases x "-vision" "2.0"; marker_cases x "-vision" "1.5";
      marker_cases x "-vision" "1.0"; marker_cases x "-vision" "ultra";
      marker_cases x "-vision" "pro"; marker_cases x "-vision" "flash";
      destruct (includes x "vision"); lia.
Qed.

(** C7: [isBetterModel] is strict: an identifier is never better than
    itself, and never better than one of equal score; so with either
    server file. *)
Theorem isBetterModel_strict :
  (forall a, Part000.isBetterModel a a = false) /\
  (forall a b, Part000.getModelScore a = Part000.getModelScore b ->
               Part000.isBetterModel a b = false) /\
  (forall a, Part001.isBetterModel a a = false) /\
  (forall a b, Part001.getModelScore a = Part001.getModelScore b ->
               Part001.isBetterModel a b = false).
Proof.
  unfold Part000.isBetterModel, Part001.isBetterModel.
  repeat split; intros; try rewrite H;
    rewrite Z.gtb_ltb; apply Z.ltb_irrefl.
Qed.

Lemma isBetterModel_strict_witness :
  Part000.isBetterModel "gemini-2.0-flash" "gemini-2.0-flash-lite" = false /\
  Part001.isBetterModel "gemini-1.5-pro" "gemini-pro-1.5" = false.
Proof.
  destruct isBetterModel_strict as [_ [H0 [_ H1]]].
  split; [apply H0 | apply H1]; reflexivity.
Defined.

(** C2, as the code has it: of two identifiers of one generation, the
    vision-marked one scores strictly higher than the unmarked one with the
    scorer of [part_000], whose vision bonus (100) exceeds every tier
    bonus; with the scorer of [part_001], whose vision bonus (25) is below
    the "ultra" bonus (30), it does so exactly when the unmarked one is
    not an "ultra" model or the vision-marked one carries a tier marker. *)
Theorem vision_preferred_within_generation (a b : string) :
  generationOf a = generationOf b ->
  includes a "vision" = true ->
  includes b "vision" = false ->
  Part000.getModelScore a > Part000.getModelScore b /\
  (Part001.getModelScore a > Part001.getModelScore b <->
   ~ (includes b "ultra" = true /\ includes a "ultra" = false /\
      includes a "pro" = false /\ includes a "flash" = false)).
Proof.
  unfold generationOf, Part000.getModelScore, Part001.getModelScore.
  intros G Va Vb. rewrite Va, Vb.
  destruct (includes a "2.0"), (includes a "1.5"), (includes a "1.0"),
    (includes b "2.0"), (includes b "1.5"), (includes b "1.0");
    try discriminate G; clear G;
    destruct (includes a "ultra"), (includes a "pro"), (includes a "flash"),
      (includes b "ultra"), (includes b "pro"), (includes b "flash");
    (split; [lia | split; [intros ? (? & ? & ? & ?); (discriminate || lia)
                          | intros N; try lia; exfalso; apply N; auto]]).
Qed.

Lemma vision_preferred_within_generation_witness :
  Part000.getModelScore "gemini-1.5-vision"
    > Part000.getModelScore "gemini-1.5-pro" /\
  (Part001.getModelScore "gemini-1.5-vision"
     > Part001.getModelScore "gemini-1.5-pro" <->
   ~ (includes "gemini-1.5-pro" "ultra" = true /\
      includes "gemini-1.5-vision" "ultra" = false /\
      includes "gemini-1.5-vision" "pro" = false /\
      includes "gemini-1.5-vision" "flash" = false)).
Proof.
  apply (vision_preferred_within_generation
           "gemini-1.5-vision" "gemini-1.5-pro"); reflexivity.
Defined.

(** C2 as stated fails with the scorer of [part_001]: both identifiers
    carry the marker "2.0", only the first is vision-marked, and it scores
    125 against 130. *)
Lemma vision_not_preferred_over_ultra :
  includes "gemini-2.0-vision" "2.0" = true /\
  includes "gemini-2.0-ultra" "2.0" = true /\
  generationOf "gemini-2.0-vision" = generationOf "gemini-2.0-ultra" /\
  includes "gemini-2.0-vision" "vision" = true /\
  includes "gemini-2.0-ultra" "vision" = false /\
  Part001.getModelScore "gemini-2.0-vision" = 125 /\
  Part001.getModelScore "gemini-2.0-ultra" = 130 /\
  ~ (Part001.getModelScore "gemini-2.0-vision"
       > Part001.getModelScore "gemini-2.0-ultra").
Proof.
  repeat split; try reflexivity. vm_compute. intros H; discriminate H.
Qed.

(** ** Selecting the best model of a list *)

Section Selection.
Variable score : string -> Z.

Lemma top_score_attained (l : list string) (t : Z) :
  top_score score l = Some t ->
  exists y, find (fun m => score m =? t) l = Some y /\ score y = t.
Proof.
  revert t; induction l as [|x l IH]; simpl; intros t H; [discriminate|].
  destruct (top_score score l) as [t'|] eqn:T; injection H as <-.
  - destruct (IH t' eq_refl) as (y & Fy & Sy).
    destruct (Z.max_spec (score x) t') as [[Lt ->]|[Ge ->]].
    + replace (score x =? t') with false by (symmetry; apply Z.eqb_neq; lia).
      eauto.
    + rewrite Z.eqb_refl. eauto.
  - rewrite Z.eqb_refl. eauto.
Qed.

Lemma select_best_cons (x : string) (l : list string) :
  select_best score (x :: l)
  = Some (match select_best score l with
          | None => x
          | Some y => keep_better score x y
          end).
Proof.
  unfold select_best, keep_better. simpl.
  destruct (top_score score l) as [t|] eqn:T.
  - destruct (top_score_attained l t T) as (y & Fy & Sy). rewrite Fy, Sy.
    destruct (Z.max_spec (score x) t) as [[Lt ->]|[Ge ->]].
    + replace (score x =? t) with false by (symmetry; apply Z.eqb_neq; lia).
      rewrite Fy. replace (t >? score x) with true; [reflexivity|].
      symmetry. rewrite Z.gtb_ltb. apply Z.ltb_lt. lia.
    + rewrite Z.eqb_refl. replace (t >? score x) with false; [reflexivity|].
      symmetry. rewrite Z.gtb_ltb. apply Z.ltb_ge. lia.
  - rewrite Z.eqb_refl. reflexivity.
Qed.

Lemma select_best_nil_iff (l : list string) :
  select_best score l = None <-> l = [].
Proof.
  split; [|intros ->; reflexivity].
  destruct l; [reflexivity | rewrite select_best_cons; discriminate].
Qed.

Lemma keep_better_assoc (x z w : string) :
  keep_better score x (keep_better score z w)
  = keep_better score (keep_better score x z) w.
Proof.
  unfold keep_better.
  destruct (score z >? score x) eqn:A, (score w >? score z) eqn:B,
    (score w >? score x) eqn:C;
    rewrite ?A, ?B, ?C; try reflexivity;
    rewrite Z.gtb_ltb in A, B, C;
    first [apply Z.ltb_lt in A | apply Z.ltb_ge in A];
    first [apply Z.ltb_lt in B | apply Z.ltb_ge in B];
    first [apply Z.ltb_lt in C | apply Z.ltb_ge in C]; lia.
Qed.

Lemma keep_better_fold (l : list string) (x z : string) :
  keep_better score x (fold_left (keep_better score) l z)
  = fold_left (keep_better score) l (keep_better score x z).
Proof.
  revert z; induction l as [|w l IH]; intros z; simpl; [reflexivity|].
  rewrite IH, keep_better_assoc. reflexivity.
Qed.

(** The selection is what comparing the models one at a time, in order,
    against the incumbent arrives at. *)
Lemma select_best_fold (x : string) (l : list string) :
  select_best score (x :: l) = Some (fold_left (keep_better score) l x).
Proof.
  revert x; induction l as [|z l IH]; intros x.
  - reflexivity || (rewrite select_best_cons; reflexivity).
  - rewrite select_best_cons, IH. simpl. rewrite keep_better_fold.
    reflexivity.
Qed.

Lemma select_best_snoc (l : list string) (m : string) :
  select_best score (l ++ [m])
  = Some (match select_best score l with
          | None => m
          | Some cur => keep_better score cur m
          end).
Proof.
  destruct l as [|x l].
  - simpl app. rewrite select_best_fold. reflexivity.
  - rewrite <- app_comm_cons, !select_best_fold, fold_left_app.
    reflexivity.
Qed.

Lemma hd_insert_desc (x : string) (sorted : list string) :
  hd_error (insert_desc score x sorted)
  = Some (match hd_error sorted with
          | None => x
          | Some y => keep_better score x y
          end).
Proof.
  destruct sorted as [|y rest]; simpl; [reflexivity|].
  unfold keep_better. rewrite Z.gtb_ltb.
  destruct (score x <? score y); reflexivity.
Qed.

(** The first element of the list sorted by descending score is the
    selection. *)
Lemma hd_sort_desc (l : list string) :
  hd_error (sort_desc score l) = select_best score l.
Proof.
  induction l as [|x l IH]; [reflexivity|].
  rewrite select_best_cons, <- IH. apply hd_insert_desc.
Qed.

Lemma sort_desc_length (l : list string) :
  List.length (sort_desc score l) = List.length l.
Proof.
  induction l as [|x l IH]; simpl; [reflexivity|].
  rewrite <- IH. generalize (sort_desc score l) as s.
  induction s as [|y s IHs]; simpl; [reflexivity|].
  destruct (score x <? score y); simpl; [rewrite IHs|]; reflexivity.
Qed.

End Selection.

(** ** The fallback loop of model discovery *)

Lemma for_of_app {A} (l1 l2 : list A) (body : A -> Run unit)
    (st : AvailableModels) :
  for_of (l1 ++ l2) body st
  = match for_of l1 body st with
    | (st', Returned _) => for_of l2 body st'
    | (st', Thrown) => (st', Thrown)
    end.
Proof.
  revert st; induction l1 as [|x l1 IH]; intros st; simpl.
  - reflexivity.
  - unfold bind. destruct (body x st) as [st' [[]|]]; auto.
Qed.

Lemma settled_truthy (slot : option string) :
  settled slot -> truthy slot = match slot with Some _ => true | None => false end.
Proof.
  destruct slot as [[|c s]|]; simpl; intros H; congruence.
Qed.

Lemma gtb_irrefl (n : Z) : (n >? n) = false.
Proof. rewrite Z.gtb_ltb. apply Z.ltb_irrefl. Qed.

Ltac run_step :=
  cbv [Part000.probeCandidate Part001.probeCandidate
       Part000.isBetterThanSlot Part001.isBetterThanSlot
       Part000.isBetterModel Part001.isBetterModel
       try_catch bind ret throw await get when
       set_text set_vision push_allModels
       text vision allModels negb andb keep_better fst snd].

Section FallbackLoop.
Variable genAI : GenerativeAI.

Lemma probe000_dead (c : nat * string) (st : AvailableModels) :
  alive genAI c = false ->
  Part000.probeCandidate genAI c st = (st, Returned tt).
Proof.
  destruct c as [i m]. unfold alive. simpl fst.
  run_step. destruct (generateText genAI i); [discriminate | reflexivity].
Qed.

Lemma probe001_dead (c : nat * string) (st : AvailableModels) :
  alive genAI c = false ->
  Part001.probeCandidate genAI c st = (st, Returned tt).
Proof.
  destruct c as [i m]. unfold alive. simpl fst.
  run_step. destruct (generateText genAI i); [discriminate | reflexivity].
Qed.

Lemma probe000_alive (c : nat * string) (st : AvailableModels) :
  alive genAI c = true ->
  snd c <> EmptyString ->
  settled (text st) -> settled (vision st) ->
  Part000.probeCandidate genAI c st
  = ({| text :=
          Some (match text st with
                | None => snd c
                | Some cur => keep_better Part000.getModelScore cur (snd c)
                end);
        vision :=
          if includes (snd c) "vision" then
            Some (match vision st with
                  | None => snd c
                  | Some cur => keep_better Part000.getModelScore cur (snd c)
                  end)
          else if sees_images genAI c then
            Some (match vision st with
                  | None => snd c
                  | Some cur => cur
                  end)
          else vision st;
        allModels := allModels st ++ [snd c] |}, Returned tt).
Proof.
  destruct c as [i m], st as [t v l]. unfold alive, sees_images.
  simpl fst; simpl snd. intros A Nm St Sv.
  pose proof (settled_truthy _ St) as Tt.
  pose proof (settled_truthy _ Sv) as Tv.
  assert (Tm : truthy (Some m) = true)
    by (destruct m; [contradiction | reflexivity]).
  simpl text in Tt; simpl vision in Tv.
  run_step.
  destruct (generateText genAI i) as [[]|]; [clear A | discriminate].
  destruct (includes m "vision") eqn:V;
    [| destruct (generateImage genAI i) as [[]|] ];
    destruct v as [cv|], t as [ct|];
    repeat (progress (run_step; rewrite ?Tv, ?Tt, ?Tm, ?gtb_irrefl));
    repeat match goal with
           | |- context [?a >? ?b] => destruct (a >? b); run_step
           end;
    reflexivity.
Qed.

Lemma probe001_alive (c : nat * string) (st : AvailableModels) :
  alive genAI c = true ->
  snd c <> EmptyString ->
  settled (text st) -> settled (vision st) ->
  Part001.probeCandidate genAI c st
  = ({| text :=
          if includes (snd c) "vision" then text st
          else Some (match text st with
                     | None => snd c
                     | Some cur => keep_better Part001.getModelScore cur (snd c)
                     end);
        vision :=
          if includes (snd c) "vision" then
            Some (match vision st with
                  | None => snd c
                  | Some cur => keep_better Part001.getModelScore cur (snd c)
                  end)
          else vision st;
        allModels := allModels st ++ [snd c] |}, Returned tt).
Proof.
  destruct c as [i m], st as [t v l]. unfold alive.
  simpl fst; simpl snd. intros A Nm St Sv.
  pose proof (settled_truthy _ St) as Tt.
  pose proof (settled_truthy _ Sv) as Tv.
  simpl text in Tt; simpl vision in Tv.
  run_step.
  destruct (generateText genAI i) as [[]|]; [clear A | discriminate].
  destruct (includes m "vision") eqn:V;
    destruct v as [cv|], t as [ct|];
    repeat (progress (run_step; rewrite ?Tv, ?Tt));
    repeat match goal with
           | |- context [?a >? ?b] => destruct (a >? b); run_step
           end;
    reflexivity.
Qed.

Lemma discovered_snoc (cands : list (nat * string)) (c : nat * string) :
  discovered genAI (cands ++ [c])
  = (discovered genAI cands ++ (if alive genAI c then [snd c] else []))%list.
Proof.
  unfold discovered. rewrite filter_app, map_app. simpl.
  destruct (alive genAI c); reflexivity.
Qed.

Lemma vision_pool_snoc (cands : list (nat * string)) (c : nat * string) :
  vision_pool genAI (cands ++ [c])
  = if vision_capable genAI c then
      match vision_pool genAI cands with
      | [] => [snd c]
      | _ :: _ =>
          (vision_pool genAI cands
           ++ (if includes (snd c) "vision" then [snd c] else []))%list
      end
    else vision_pool genAI cands.
Proof.
  unfold vision_pool, discovered_vision. rewrite filter_app, map_app. simpl.
  destruct (vision_capable genAI c); simpl.
  - destruct (map snd (filter (vision_capable genAI) cands)) as [|p rest];
      simpl; [reflexivity|].
    rewrite filter_app. reflexivity.
  - rewrite app_nil_r. reflexivity.
Qed.

Lemma settled_keep (score : string -> Z) (slot : option string) (m : string) :
  m <> EmptyString -> settled slot ->
  settled (Some (match slot with
                 | None => m
                 | Some cur => keep_better score cur m
                 end)).
Proof.
  destruct slot as [cur|]; simpl; auto. unfold keep_better.
  destruct (score m >? score cur); auto.
Qed.

(** What the loop of [part_000] has selected after any run of candidates. *)
Lemma loop000_selection (cands : list (nat * string)) :
  Forall (fun c => snd c <> EmptyString) cands ->
  exists st,
    Part000.probeLoop genAI cands initialModels = (st, Returned tt) /\
    allModels st = discovered genAI cands /\
    text st = select_best Part000.getModelScore (discovered genAI cands) /\
    vision st = select_best Part000.getModelScore (vision_pool genAI cands) /\
    settled (text st) /\ settled (vision st).
Proof.
  unfold Part000.probeLoop.
  induction cands as [|c cands IH] using rev_ind; intros Fa.
  - exists initialModels. repeat split.
  - apply Forall_app in Fa. destruct Fa as [Fa Fc].
    apply Forall_inv in Fc.
    destruct (IH Fa) as (st & Run0 & Ha & Ht & Hv & St & Sv).
    rewrite for_of_app, Run0. simpl for_of. unfold bind, ret.
    rewrite discovered_snoc, vision_pool_snoc. unfold vision_capable.
    destruct (alive genAI c) eqn:A.
    + rewrite (probe000_alive c st A Fc St Sv).
      eexists; split; [reflexivity|]. simpl.
      repeat split.
      * rewrite Ha. reflexivity.
      * rewrite select_best_snoc, Ht. reflexivity.
      * rewrite Hv.
        destruct (includes (snd c) "vision"), (sees_images genAI c);
          simpl; destruct (vision_pool genAI cands) as [|p rest] eqn:P;
          rewrite ?app_nil_r, ?select_best_snoc; try reflexivity;
          rewrite select_best_cons; reflexivity.
      * apply settled_keep; assumption.
      * destruct (includes (snd c) "vision");
          [apply settled_keep; assumption|].
        destruct (sees_images genAI c); [|assumption].
        destruct (vision st); simpl in *; assumption.
    + rewrite (probe000_dead c st A). simpl. rewrite app_nil_r.
      exists st. repeat split; assumption.
Qed.

(** What the loop of [part_001] has selected after any run of candidates. *)
Lemma loop001_selection (cands : list (nat * string)) :
  Forall (fun c => snd c <> EmptyString) cands ->
  exists st,
    Part001.probeLoop genAI cands initialModels = (st, Returned tt) /\
    allModels st = discovered genAI cands /\
    text st
    = select_best Part001.getModelScore
        (filter (fun m => negb (includes m "vision"))
           (discovered genAI cands)) /\
    vision st
    = select_best Part001.getModelScore
        (filter (fun m => includes m "vision") (discovered genAI cands)) /\
    settled (text st) /\ settled (vision st).
Proof.
  unfold Part001.probeLoop.
  induction cands as [|c cands IH] using rev_ind; intros Fa.
  - exists initialModels. repeat split.
  - apply Forall_app in Fa. destruct Fa as [Fa Fc].
    apply Forall_inv in Fc.
    destruct (IH Fa) as (st & Run0 & Ha & Ht & Hv & St & Sv).
    rewrite for_of_app, Run0. simpl for_of. unfold bind, ret.
    rewrite discovered_snoc, !filter_app.
    destruct (alive genAI c) eqn:A.
    + rewrite (probe001_alive c st A Fc St Sv).
      eexists; split; [reflexivity|]. simpl.
      destruct (includes (snd c) "vision") eqn:V; simpl;
        rewrite ?app_nil_r, ?select_best_snoc, <- ?Ht, <- ?Hv, Ha;
        repeat split; try assumption;
        first [ exact (settled_keep _ _ _ Fc Sv)
              | exact (settled_keep _ _ _ Fc St) ].
    + rewrite (probe001_dead c st A). simpl. rewrite !app_nil_r.
      exists st. repeat split; assumption.
Qed.

(** A loop whose liveness requests all fail leaves the state as it is. *)
Lemma loop_all_dead (cands : list (nat * string)) (st : AvailableModels) :
  (forall i, generateText genAI i = Thrown) ->
  Part000.probeLoop genAI cands st = (st, Returned tt) /\
  Part001.probeLoop genAI cands st = (st, Returned tt).
Proof.
  intros D. unfold Part000.probeLoop, Part001.probeLoop.
  induction cands as [|c cands [IH0 IH1]]; [split; reflexivity|].
  assert (A : alive genAI c = false) by (unfold alive; rewrite D; reflexivity).
  simpl for_of. unfold bind.
  rewrite (probe000_dead c st A), (probe001_dead c st A). auto.
Qed.

End FallbackLoop.

(** ** Classifying a listed set of models *)

Lemma identifyAndCategorizeModels_selects
    (modelsList : list string) (st : AvailableModels) :
  Part000.identifyAndCategorizeModels modelsList st
  = ({| text := match modelsList with
                | [] => text st
                | _ :: _ => select_best Part000.getModelScore modelsList
                end;
        vision :=
          match filter (fun m => includes m "vision") modelsList with
          | [] => vision st
          | _ :: _ =>
              select_best Part000.getModelScore
                (filter (fun m => includes m "vision") modelsList)
          end;
        allModels := allModels st |}, Returned tt).
Proof.
  unfold Part000.identifyAndCategorizeModels.
  cbv [bind when ret set_text set_vision].
  rewrite !sort_desc_length, !hd_sort_desc.
  destruct (filter (fun m => includes m "vision") modelsList);
    destruct modelsList; destruct st; reflexivity.
Qed.

Lemma processListedModels_selects (st : AvailableModels) :
  Part001.processListedModels st
  = ({| text :=
          match filter (fun m => negb (includes m "vision")) (allModels st)
          with
          | [] => text st
          | _ :: _ =>
              select_best Part001.getModelScore
                (filter (fun m => negb (includes m "vision")) (allModels st))
          end;
        vision :=
          match filter (fun m => includes m "vision") (allModels st) with
          | [] => vision st
          | _ :: _ =>
              select_best Part001.getModelScore
                (filter (fun m => includes m "vision") (allModels st))
          end;
        allModels := allModels st |}, Returned tt).
Proof.
  unfold Part001.processListedModels.
  cbv [bind when ret get set_text set_vision].
  rewrite hd_sort_desc.
  destruct st as [t v l]; simpl.
  destruct (filter (fun m => includes m "vision") l); simpl;
    rewrite hd_sort_desc;
    destruct (filter (fun m => negb (includes m "vision")) l); reflexivity.
Qed.

(** ** Model discovery *)

(** C3, as the code has it.  After the fallback loop has run over any
    candidates with non-empty names, starting from the initial state:
    - [part_000] holds as text model the first highest-scoring model of
      all discovered ones (the text choice of
      [identifyAndCategorizeModels] on that list), and as vision model the
      first highest-scoring one among the first discovered model that
      handles images and the vision-named models discovered after it;
    - [part_001] holds as text model the first highest-scoring discovered
      model without "vision" in its name and as vision model the first
      highest-scoring one with it: the state its listing branch computes
      from the discovered list. *)
Theorem fallback_selection_by_score
    (genAI : GenerativeAI) (cands : list (nat * string)) :
  Forall (fun c => snd c <> EmptyString) cands ->
  (allModels (fst (Part000.probeLoop genAI cands initialModels))
   = discovered genAI cands /\
   text (fst (Part000.probeLoop genAI cands initialModels))
   = select_best Part000.getModelScore (discovered genAI cands) /\
   text (fst (Part000.probeLoop genAI cands initialModels))
   = text (fst (Part000.identifyAndCategorizeModels
                  (discovered genAI cands) initialModels)) /\
   vision (fst (Part000.probeLoop genAI cands initialModels))
   = select_best Part000.getModelScore (vision_pool genAI cands)) /\
  (allModels (fst (Part001.probeLoop genAI cands initialModels))
   = discovered genAI cands /\
   text (fst (Part001.probeLoop genAI cands initialModels))
   = select_best Part001.getModelScore
       (filter (fun m => negb (includes m "vision"))
          (discovered genAI cands)) /\
   vision (fst (Part001.probeLoop genAI cands initialModels))
   = select_best Part001.getModelScore
       (filter (fun m => includes m "vision") (discovered genAI cands)) /\
   fst (Part001.probeLoop genAI cands initialModels)
   = fst (Part001.processListedModels
            {| text := None; vision := None;
               allModels := discovered genAI cands |})).
Proof.
  intros Fa.
  destruct (loop000_selection genAI cands Fa) as (st0 & R0 & A0 & T0 & V0 & _).
  destruct (loop001_selection genAI cands Fa) as (st1 & R1 & A1 & T1 & V1 & _).
  rewrite R0, R1, identifyAndCategorizeModels_selects,
    processListedModels_selects.
  simpl fst. simpl text. simpl vision. simpl allModels.
  repeat split; try assumption.
  - rewrite T0. destruct (discovered genAI cands); reflexivity.
  - destruct st1 as [t v l]. simpl in *. subst t v l.
    f_equal;
      match goal with
      | |- _ = match ?l with _ => _ end => destruct l; reflexivity
      end.
Qed.

Lemma fallback_selection_by_score_witness :
  vision (fst (Part000.probeLoop Scenario.two_multimodal
                 (indexed Part000.allPotentialModels) initialModels))
  = select_best Part000.getModelScore
      (vision_pool Scenario.two_multimodal
         (indexed Part000.allPotentialModels)) /\
  fst (Part001.probeLoop Scenario.two_multimodal
         (indexed Part001.potentialModels) initialModels)
  = fst (Part001.processListedModels
           {| text := None; vision := None;
              allModels := discovered Scenario.two_multimodal
                             (indexed Part001.potentialModels) |}).
Proof.
  split.
  - destruct (fallback_selection_by_score Scenario.two_multimodal
                (indexed Part000.allPotentialModels))
      as [(_ & _ & _ & V) _]; [repeat constructor; discriminate | exact V].
  - destruct (fallback_selection_by_score Scenario.two_multimodal
                (indexed Part001.potentialModels))
      as [_ (_ & _ & _ & E)]; [repeat constructor; discriminate | exact E].
Defined.

(** C3 as stated fails for the vision slot of [part_000]: when only
    "gemini-2.0-flash" and "gemini-2.0-pro" answer and both accept an
    image, discovery keeps "gemini-2.0-flash" (score 220) as vision model,
    while the first highest-scoring model of the discovered set, and of
    its models that handle images, is "gemini-2.0-pro" (230), and no
    discovered model is vision-named. *)
Lemma fallback_vision_not_best_of_discovered :
  Part000.discoverAvailableModels Scenario.two_multimodal initialModels
  = ({| text := Some "gemini-2.0-pro";
        vision := Some "gemini-2.0-flash";
        allModels :=
          ["gemini-2.0-flash"; "gemini-2.0-pro"; "gemini-2.0-flash"] |},
     Returned true) /\
  select_best Part000.getModelScore
    (discovered Scenario.two_multimodal (indexed Part000.allPotentialModels))
  = Some "gemini-2.0-pro" /\
  select_best Part000.getModelScore
    (discovered_vision Scenario.two_multimodal
       (indexed Part000.allPotentialModels))
  = Some "gemini-2.0-pro" /\
  select_best Part000.getModelScore
    (filter (fun m => includes m "vision")
       (discovered Scenario.two_multimodal
          (indexed Part000.allPotentialModels)))
  = None /\
  vision (fst (Part000.discoverAvailableModels Scenario.two_multimodal
                 initialModels))
  <> select_best Part000.getModelScore
       (discovered Scenario.two_multimodal
          (indexed Part000.allPotentialModels)) /\
  vision (fst (Part000.discoverAvailableModels Scenario.two_multimodal
                 initialModels))
  <> select_best Part000.getModelScore
       (discovered_vision Scenario.two_multimodal
          (indexed Part000.allPotentialModels)).
Proof.
  repeat split; try (vm_compute; reflexivity);
    vm_compute; intros H; discriminate H.
Qed.

(** C4: when the listing yields no model and every liveness request of the
    fallback loop fails, [discoverAvailableModels] returns [false] (it does
    not throw) and leaves the state without models; so in both server
    files. *)
Theorem discovery_without_models_returns_false (genAI : GenerativeAI) :
  listing_fails genAI ->
  (forall i, generateText genAI i = Thrown) ->
  Part000.discoverAvailableModels genAI initialModels
  = (initialModels, Returned false) /\
  Part001.discoverAvailableModels genAI initialModels
  = (initialModels, Returned false).
Proof.
  unfold listing_fails. intros L D.
  unfold Part000.discoverAvailableModels, Part001.discoverAvailableModels.
  cbv [try_catch bind await ret get set_allModels].
  destruct (listModels genAI) as [[names|]|]; try subst names; simpl;
    rewrite ?(proj1 (loop_all_dead genAI _ initialModels D)),
            ?(proj2 (loop_all_dead genAI _ initialModels D));
    split; reflexivity.
Qed.

Lemma discovery_without_models_returns_false_witness :
  Part000.discoverAvailableModels Scenario.unreachable initialModels
  = (initialModels, Returned false) /\
  Part001.discoverAvailableModels Scenario.unreachable initialModels
  = (initialModels, Returned false).
Proof.
  apply (discovery_without_models_returns_false Scenario.unreachable).
  - exact I.
  - intros i. reflexivity.
Defined.

(** C5: when the listing returns "gemini-pro-vision" and
    "gemini-2.0-flash", discovery selects "gemini-pro-vision" as vision
    model and "gemini-2.0-flash" as text model, in both server files. *)
Theorem listed_pair_classified
    (probeText probeImage : nat -> completion unit) :
  Part000.discoverAvailableModels
    {| listModels := Returned (Some ["gemini-pro-vision"; "gemini-2.0-flash"]);
       generateText := probeText; generateImage := probeImage |}
    initialModels
  = ({| text := Some "gemini-2.0-flash";
        vision := Some "gemini-pro-vision";
        allModels := ["gemini-pro-vision"; "gemini-2.0-flash"] |},
     Returned true) /\
  Part001.discoverAvailableModels
    {| listModels := Returned (Some ["gemini-pro-vision"; "gemini-2.0-flash"]);
       generateText := probeText; generateImage := probeImage |}
    initialModels
  = ({| text := Some "gemini-2.0-flash";
        vision := Some "gemini-pro-vision";
        allModels := ["gemini-pro-vision"; "gemini-2.0-flash"] |},
     Returned true) /\
  fst (Part000.identifyAndCategorizeModels
         ["gemini-pro-vision"; "gemini-2.0-flash"] initialModels)
  = {| text := Some "gemini-2.0-flash";
       vision := Some "gemini-pro-vision";
       allModels := [] |}.
Proof.
  repeat split; vm_compute; reflexivity.
Qed.

(** ** The chat handler *)

Section ChatHandler.
Import Chat.
Variable rt : Runtime.

(** A model name that cannot be written to the log ends the handler before
    it asks the SDK for the model. *)
Lemma chatHandler_unprintable_model
    (models : AvailableModels) (reqBody requested : value)
    (items : list value) :
  prop rt reqBody "model" = Ok requested ->
  prop rt reqBody "messages" = Ok (VArray items) ->
  Js.truthy (text models) = true ->
  stringifiable (modelNameFor models requested) = false ->
  chatHandler rt models reqBody
  = (chatCatch (mkError (conversionErrorMessage rt)), []).
Proof.
  intros Pm P T S. unfold chatHandler, chatTry.
  rewrite Pm, P, T, S. reflexivity.
Qed.

(** A model the SDK refuses to build ends the handler before it reads the
    messages. *)
Lemma chatHandler_model_refused
    (models : AvailableModels) (reqBody requested : value)
    (items : list value) (msg : string) :
  prop rt reqBody "model" = Ok requested ->
  prop rt reqBody "messages" = Ok (VArray items) ->
  Js.truthy (text models) = true ->
  stringifiable (modelNameFor models requested) = true ->
  getGenerativeModel rt (modelNameFor models requested) = Some msg ->
  chatHandler rt models reqBody = (chatCatch (mkError msg), []).
Proof.
  intros Pm P T S G. unfold chatHandler, chatTry.
  rewrite Pm, P, T, S, G. reflexivity.
Qed.

(** Once the model is built and the messages are formatted, the handler
    starts the chat and sends the prompt. *)
Lemma chatHandler_formatted
    (models : AvailableModels) (reqBody requested : value)
    (items : list value) (history : list turn) (prompt : value) :
  prop rt reqBody "model" = Ok requested ->
  prop rt reqBody "messages" = Ok (VArray items) ->
  Js.truthy (text models) = true ->
  stringifiable (modelNameFor models requested) = true ->
  getGenerativeModel rt (modelNameFor models requested) = None ->
  formatMessages rt items [] (VString EmptyString) = Ok (history, prompt) ->
  read_length rt prompt = Ok tt ->
  chatHandler rt models reqBody
  = match startChat rt (modelNameFor models requested) history with
    | Some msg => (chatCatch (mkError msg), [])
    | None =>
        let call := {| call_model := modelNameFor models requested;
                       call_history := history;
                       call_prompt := prompt |} in
        match sendMessage rt call with
        | inl generated =>
            ({| status := 200;
                payload :=
                  ContentBody generated (modelNameFor models requested) |},
             [call])
        | inr msg => (chatCatch (mkError msg), [call])
        end
    end.
Proof.
  intros Pm P T S G F L. unfold chatHandler, chatTry.
  rewrite Pm, P, T, S, G. simpl negb. simpl orb. cbv iota.
  rewrite F, L.
  destruct (startChat rt (modelNameFor models requested) history);
    [reflexivity|].
  cbv zeta.
  match goal with
  | |- context [sendMessage rt ?c] => destruct (sendMessage rt c)
  end; reflexivity.
Qed.

(** C1, as the code has it.  For a request whose body is an object:
    - when [messages] is missing or falsy, or is not an array, the handler
      answers 400 and sends nothing upstream;
    - when [messages] is the empty array and no text model is selected,
      it answers 503 and sends nothing upstream;
    - when [messages] is the empty array and a text model is selected, the
      validation lets it through.  The handler then takes the model the
      request names, or else the selected text model.  If that name can be
      written to the log, the SDK builds the model and it starts a chat
      without history, the handler sends one request upstream: the empty
      prompt, with an empty history.  If the name cannot be written to the
      log, or the SDK throws on building the model or on starting the
      chat, the handler answers from its [catch] block with the error
      thrown and sends nothing upstream. *)
Theorem chat_validation_before_upstream
    (models : AvailableModels) (reqBody messages requested : value) :
  prop rt reqBody "messages" = Ok messages ->
  prop rt reqBody "model" = Ok requested ->
  (truthy messages = false \/ isArray messages = false ->
   chatHandler rt models reqBody
   = ({| status := 400;
         payload := ErrorBody "Invalid messages format" None |}, [])) /\
  (messages = VArray [] -> Js.truthy (text models) = false ->
   status (fst (chatHandler rt models reqBody)) = 503 /\
   rejected (fst (chatHandler rt models reqBody)) = true /\
   snd (chatHandler rt models reqBody) = []) /\
  (messages = VArray [] -> Js.truthy (text models) = true ->
   (stringifiable (modelNameFor models requested) = true ->
    getGenerativeModel rt (modelNameFor models requested) = None ->
    startChat rt (modelNameFor models requested) [] = None ->
    snd (chatHandler rt models reqBody)
    = [ {| call_model := modelNameFor models requested;
           call_history := [];
           call_prompt := VString EmptyString |} ]) /\
   (stringifiable (modelNameFor models requested) = false ->
    chatHandler rt models reqBody
    = (chatCatch (mkError (conversionErrorMessage rt)), [])) /\
   (forall msg,
      stringifiable (modelNameFor models requested) = true ->
      getGenerativeModel rt (modelNameFor models requested) = Some msg ->
      chatHandler rt models reqBody = (chatCatch (mkError msg), [])) /\
   (forall msg,
      stringifiable (modelNameFor models requested) = true ->
      getGenerativeModel rt (modelNameFor models requested) = None ->
      startChat rt (modelNameFor models requested) [] = Some msg ->
      chatHandler rt models reqBody = (chatCatch (mkError msg), []))).
Proof.
  intros P Pm.
  split; [|split].
  - unfold chatHandler, chatTry. rewrite P, Pm. intros [T|A].
    + rewrite T. reflexivity.
    + rewrite A. rewrite orb_true_r. reflexivity.
  - unfold chatHandler, chatTry. rewrite P, Pm.
    intros -> T. simpl. rewrite T. simpl. auto.
  - intros -> T. repeat split.
    + intros S G C.
      rewrite (chatHandler_formatted models reqBody requested [] []
                 (VString EmptyString) Pm P T S G eq_refl eq_refl), C.
      cbv zeta.
      match goal with
      | |- context [sendMessage rt ?c] => destruct (sendMessage rt c)
      end; reflexivity.
    + intros S. exact (chatHandler_unprintable_model _ _ _ _ Pm P T S).
    + intros msg S G. exact (chatHandler_model_refused _ _ _ _ _ Pm P T S G).
    + intros msg S G C.
      rewrite (chatHandler_formatted models reqBody requested [] []
                 (VString EmptyString) Pm P T S G eq_refl eq_refl), C.
      reflexivity.
Qed.

End ChatHandler.

Lemma chat_validation_before_upstream_witness :
  Chat.chatHandler Scenario.answering initialModels
    (Chat.VObject [("messages", Chat.VString "hello")])
  = ({| Chat.status := 400;
        Chat.payload := Chat.ErrorBody "Invalid messages format" None |},
     []) /\
  Chat.status
    (fst (Chat.chatHandler Scenario.answering initialModels
            Scenario.empty_messages)) = 503 /\
  snd (Chat.chatHandler Scenario.answering Scenario.flash_selected
         Scenario.empty_messages)
  = [ {| Chat.call_model := Chat.VString "gemini-2.0-flash";
         Chat.call_history := [];
         Chat.call_prompt := Chat.VString EmptyString |} ] /\
  Chat.chatHandler Scenario2.validating Scenario.flash_selected
    Scenario2.unprintable_model
  = ({| Chat.status := 500;
        Chat.payload :=
          Chat.ErrorBody "An error occurred while processing your request"
            (Some "Cannot convert object to primitive value") |}, []) /\
  Chat.chatHandler Scenario2.validating Scenario.flash_selected
    Scenario2.numeric_model
  = ({| Chat.status := 500;
        Chat.payload :=
          Chat.ErrorBody "An error occurred while processing your request"
            (Some "modelParams.model.includes is not a function") |}, []).
Proof.
  split; [|split; [|split; [|split]]].
  - apply (chat_validation_before_upstream Scenario.answering initialModels
             (Chat.VObject [("messages", Chat.VString "hello")])
             (Chat.VString "hello") Chat.VUndefined);
      [reflexivity | reflexivity | right; reflexivity].
  - apply (chat_validation_before_upstream Scenario.answering initialModels
             Scenario.empty_messages (Chat.VArray []) Chat.VUndefined);
      reflexivity.
  - exact (proj1
             (proj2 (proj2
                (chat_validation_before_upstream Scenario.answering
                   Scenario.flash_selected Scenario.empty_messages
                   (Chat.VArray []) Chat.VUndefined eq_refl eq_refl))
                eq_refl eq_refl)
             eq_refl eq_refl eq_refl).
  - exact (proj1 (proj2
             (proj2 (proj2
                (chat_validation_before_upstream Scenario2.validating
                   Scenario.flash_selected Scenario2.unprintable_model
                   (Chat.VArray [])
                   (Chat.VObject [("toString", Chat.VNumber 1)])
                   eq_refl eq_refl))
                eq_refl eq_refl))
             eq_refl).
  - exact (proj1 (proj2 (proj2
             (proj2 (proj2
                (chat_validation_before_upstream Scenario2.validating
                   Scenario.flash_selected Scenario2.numeric_model
                   (Chat.VArray []) (Chat.VNumber 123) eq_refl eq_refl))
                eq_refl eq_refl)))
             "modelParams.model.includes is not a function"
             eq_refl eq_refl).
Defined.

(** C1 as stated fails: with a text model selected, the request
    [{ "messages": [] }] is not rejected; the handler sends the empty
    prompt upstream and relays the answer with status 200. *)
Lemma empty_messages_reach_upstream :
  Chat.chatHandler Scenario.answering Scenario.flash_selected
    Scenario.empty_messages
  = ({| Chat.status := 200;
        Chat.payload :=
          Chat.ContentBody "Hello" (Chat.VString "gemini-2.0-flash") |},
     [ {| Chat.call_model := Chat.VString "gemini-2.0-flash";
          Chat.call_history := [];
          Chat.call_prompt := Chat.VString EmptyString |} ]) /\
  Chat.rejected
    (fst (Chat.chatHandler Scenario.answering Scenario.flash_selected
            Scenario.empty_messages)) = false /\
  snd (Chat.chatHandler Scenario.answering Scenario.flash_selected
         Scenario.empty_messages) <> [].
Proof.
  repeat split; try reflexivity. vm_compute. discriminate.
Qed.

(** ** The conversation statistics *)

Section Statistics.
Import Analytics.

(** C8: [totalMessages = userMessages + aiMessages], and
    [avgResponseTime = totalResponseTime / length responseTimeHistory]
    whenever the history is not empty, hold of the zeroed record and are
    kept by [trackUserMessage], [trackAIResponse], [trackImageUpload] and
    [resetStats]. *)
Theorem stats_invariant_preserved :
  stats_invariant zeroStats /\
  forall (op : operation) (s : ConversationStats),
    stats_invariant s -> stats_invariant (apply op s).
Proof.
  split.
  - split; [reflexivity | intros H; contradiction H; reflexivity].
  - intros op s [C A]. unfold stats_invariant, counts_consistent,
      average_consistent in *.
    destruct op; simpl.
    + split; [lia | exact A].
    + unfold trackAIResponse.
      destruct (pending (lastQuery s)) as [asked|]; simpl.
      * split; [lia | intros _; reflexivity].
      * split; [lia | exact A].
    + split; assumption.
    + split; [reflexivity | intros H; contradiction H; reflexivity].
Qed.

Lemma stats_invariant_preserved_witness :
  stats_invariant
    (apply (TrackAIResponse "hi there" 2500 "2024-05-01T10:00:02.500Z"
              "2024-05-01T10:00:02.500Z")
       (apply (TrackUserMessage "hello" "2024-05-01T10:00:00.000Z" 1000)
          zeroStats)).
Proof.
  destruct stats_invariant_preserved as [Zero Step].
  apply Step, Step, Zero.
Defined.

(** C9: of two calls of [trackAIResponse] in a row the first clears
    [lastQuery], so the second appends no sample: together they append at
    most one. *)
Theorem second_response_records_no_sample
    (s : ConversationStats)
    (response1 : string) (now1 : Z) (stamp1 iso1 : string)
    (response2 : string) (now2 : Z) (stamp2 iso2 : string) :
  lastQuery (trackAIResponse response1 now1 stamp1 iso1 s) = None /\
  responseTimeHistory
    (trackAIResponse response2 now2 stamp2 iso2
       (trackAIResponse response1 now1 stamp1 iso1 s))
  = responseTimeHistory (trackAIResponse response1 now1 stamp1 iso1 s) /\
  (List.length
     (responseTimeHistory
        (trackAIResponse response2 now2 stamp2 iso2
           (trackAIResponse response1 now1 stamp1 iso1 s)))
   <= List.length (responseTimeHistory s) + 1)%nat.
Proof.
  unfold trackAIResponse.
  destruct (pending (lastQuery s)) as [asked|]; simpl;
    repeat split; try reflexivity; rewrite ?length_app; simpl; lia.
Qed.

(** C10: [tokenUsage.total = tokenUsage.input + tokenUsage.output] holds
    of the zeroed record and is kept by [trackUserMessage],
    [trackAIResponse], [trackImageUpload] and [resetStats]. *)
Theorem token_invariant_preserved :
  tokens_consistent zeroStats /\
  forall (op : operation) (s : ConversationStats),
    tokens_consistent s -> tokens_consistent (apply op s).
Proof.
  unfold tokens_consistent. split; [reflexivity|].
  intros op s T. destruct op; simpl; try assumption; try reflexivity.
  - lia.
  - unfold trackAIResponse.
    destruct (pending (lastQuery s)); simpl; lia.
Qed.

Lemma token_invariant_preserved_witness :
  tokens_consistent
    (apply (TrackAIResponse "hi there" 2500 "2024-05-01T10:00:02.500Z"
              "2024-05-01T10:00:02.500Z")
       (apply (TrackUserMessage "hello" "2024-05-01T10:00:00.000Z" 1000)
          zeroStats)).
Proof.
  destruct token_invariant_preserved as [Zero Step].
  apply Step, Step, Zero.
Defined.

End Statistics.

(* ================================================================== *)
(** * Further properties of the code *)

Import Notions.

(** ** The scorer *)

Lemma includes_prepend (pre x needle : string) :
  includes x needle = true -> includes (pre ++ x) needle = true.
Proof.
  intros H. induction pre as [|c pre IH]; [exact H|].
  change (String c pre ++ x) with (String c (pre ++ x)).
  simpl includes. rewrite IH. apply orb_true_r.
Qed.

(** Uses the hypotheses "a marker found in [a] is found in [b]" once the
    tests of [a] are decided. *)
Ltac use_kept :=
  repeat match goal with
         | H : true = true -> _ = true |- _ =>
             specialize (H eq_refl); rewrite ?H; clear H
         | H : false = true -> _ |- _ => clear H
         end.

Lemma markers_kept_score (a b : string) :
  markers_kept a b ->
  Part000.getModelScore b >= Part000.getModelScore a /\
  Part001.getModelScore b >= Part001.getModelScore a.
Proof.
  intros K.
  assert (K20 := K "2.0"). assert (K15 := K "1.5"). assert (K10 := K "1.0").
  assert (Ku := K "ultra"). assert (Kp := K "pro"). assert (Kf := K "flash").
  assert (Kv := K "vision"). clear K. simpl in *.
  repeat match goal with
         | H : ?P -> _ -> _ |- _ =>
             let F := fresh in
             assert (F : P) by tauto; specialize (H F); clear F
         end.
  unfold Part000.getModelScore, Part001.getModelScore.
  split.
  - set (Ga := if includes a "2.0" then _ else _).
    set (Gb := if includes b "2.0" then _ else _).
    assert (G : Gb >= Ga).
    { subst Ga Gb. clear Ku Kp Kf Kv.
      destruct (includes a "2.0"), (includes a "1.5"), (includes a "1.0");
        use_kept;
        destruct (includes b "2.0"), (includes b "1.5"), (includes b "1.0");
        lia. }
    clearbody Ga Gb. clear K20 K15 K10 Ku.
    destruct (includes a "pro"), (includes a "flash"), (includes a "vision");
      use_kept;
      destruct (includes b "pro"), (includes b "flash"),
        (includes b "vision"); lia.
  - set (Ga := if includes a "2.0" then _ else _).
    set (Gb := if includes b "2.0" then _ else _).
    assert (G : Gb >= Ga).
    { subst Ga Gb. clear Ku Kp Kf Kv.
      destruct (includes a "2.0"), (includes a "1.5"), (includes a "1.0");
        use_kept;
        destruct (includes b "2.0"), (includes b "1.5"), (includes b "1.0");
        lia. }
    clearbody Ga Gb. clear K20 K15 K10.
    destruct (includes a "ultra"), (includes a "pro"), (includes a "flash"),
      (includes a "vision");
      use_kept;
      destruct (includes b "ultra"), (includes b "pro"),
        (includes b "flash"), (includes b "vision"); lia.
Qed.

(** X1: an identifier that contains another one (with any text before and
    after it) never scores lower, with either scorer. *)
Theorem longer_name_never_scores_lower (pre x suf : string) :
  Part000.getModelScore (pre ++ x ++ suf) >= Part000.getModelScore x /\
  Part001.getModelScore (pre ++ x ++ suf) >= Part001.getModelScore x.
Proof.
  apply markers_kept_score. intros marker _ H.
  apply includes_prepend, includes_append, H.
Qed.

(** X2: of two identifiers with the same tier and vision markers, the one
    of the newer generation scores strictly higher, with either scorer. *)
Theorem newer_generation_scores_higher (a b : string) :
  same_tier_and_vision a b ->
  generation_rank (generationOf a) > generation_rank (generationOf b) ->
  Part000.getModelScore a > Part000.getModelScore b /\
  Part001.getModelScore a > Part001.getModelScore b.
Proof.
  unfold same_tier_and_vision, generationOf, Part000.getModelScore,
    Part001.getModelScore.
  intros (U & P & F & V). rewrite U, P, F, V.
  destruct (includes a "2.0"), (includes a "1.5"), (includes a "1.0"),
    (includes b "2.0"), (includes b "1.5"), (includes b "1.0");
    simpl; intros G; try lia;
    destruct (includes b "ultra"), (includes b "pro"), (includes b "flash"),
      (includes b "vision"); split; lia.
Qed.

Lemma newer_generation_scores_higher_witness :
  Part000.getModelScore "gemini-2.0-pro"
    > Part000.getModelScore "gemini-1.5-pro" /\
  Part001.getModelScore "gemini-2.0-pro"
    > Part001.getModelScore "gemini-1.5-pro".
Proof.
  apply (newer_generation_scores_higher "gemini-2.0-pro" "gemini-1.5-pro").
  - repeat split.
  - reflexivity.
Defined.

(** X3: of two identifiers of one generation with the same vision marker,
    a "pro" model scores strictly higher than one without "pro": always
    with the scorer of [part_000], and with the scorer of [part_001]
    unless the other one is an "ultra" model. *)
Theorem pro_tier_scores_higher (a b : string) :
  generationOf a = generationOf b ->
  includes a "vision" = includes b "vision" ->
  includes a "pro" = true ->
  includes b "pro" = false ->
  Part000.getModelScore a > Part000.getModelScore b /\
  (includes b "ultra" = false ->
   Part001.getModelScore a > Part001.getModelScore b).
Proof.
  unfold generationOf, Part000.getModelScore, Part001.getModelScore.
  intros G V Pa Pb. rewrite V, Pa, Pb.
  destruct (includes a "2.0"), (includes a "1.5"), (includes a "1.0"),
    (includes b "2.0"), (includes b "1.5"), (includes b "1.0");
    try discriminate G; clear G;
    destruct (includes a "ultra"), (includes a "flash"),
      (includes b "flash"), (includes b "vision");
    (split; [lia | intros ->; lia]).
Qed.

Lemma pro_tier_scores_higher_witness :
  Part000.getModelScore "gemini-1.5-pro"
    > Part000.getModelScore "gemini-1.5-flash" /\
  (includes "gemini-1.5-flash" "ultra" = false ->
   Part001.getModelScore "gemini-1.5-pro"
     > Part001.getModelScore "gemini-1.5-flash").
Proof.
  apply (pro_tier_scores_higher "gemini-1.5-pro" "gemini-1.5-flash");
    reflexivity.
Defined.

(** ** Model discovery, from start to finish *)

Section BestOfList.
Variable score : string -> Z.

Lemma select_best_In (l : list string) (y : string) :
  select_best score l = Some y -> In y l.
Proof.
  unfold select_best. destruct (top_score score l); [|discriminate].
  intros F. apply find_some in F. tauto.
Qed.

Lemma top_score_bound (l : list string) (t : Z) :
  top_score score l = Some t -> forall m, In m l -> score m <= t.
Proof.
  revert t; induction l as [|x l IH]; simpl; intros t H m I; [contradiction|].
  destruct (top_score score l) as [t'|] eqn:T; injection H as <-.
  - destruct I as [<-|I]; [lia|]. specialize (IH t' eq_refl m I). lia.
  - destruct I as [<-|I]; [lia|]. destruct l; [contradiction | discriminate].
Qed.

Lemma select_best_max (l : list string) (y : string) :
  select_best score l = Some y -> forall m, In m l -> score m <= score y.
Proof.
  unfold select_best. destruct (top_score score l) as [t|] eqn:T;
    [|discriminate].
  intros F m I. apply find_some in F. destruct F as [_ E].
  apply Z.eqb_eq in E. rewrite E. exact (top_score_bound l t T m I).
Qed.

End BestOfList.

Lemma catalog000_named :
  Forall (fun c : nat * string => snd c <> EmptyString)
    (indexed Part000.allPotentialModels).
Proof. repeat constructor; discriminate. Qed.

Lemma catalog001_named :
  Forall (fun c : nat * string => snd c <> EmptyString)
    (indexed Part001.potentialModels).
Proof. repeat constructor; discriminate. Qed.

(** The two ways [discoverAvailableModels] of [part_000] ends when started
    from the initial state. *)
Lemma discover000_cases (genAI : GenerativeAI) :
  (exists names,
     names <> [] /\
     listModels genAI = Returned (Some names) /\
     Part000.discoverAvailableModels genAI initialModels
     = ({| text := select_best Part000.getModelScore names;
           vision := select_best Part000.getModelScore
                       (filter (fun m => includes m "vision") names);
           allModels := names |}, Returned true)) \/
  (listing_fails genAI /\
   exists st,
     Part000.discoverAvailableModels genAI initialModels
     = (st, Returned (0 <? List.length (allModels st))%nat) /\
     allModels st = discovered genAI (indexed Part000.allPotentialModels) /\
     text st = select_best Part000.getModelScore (allModels st) /\
     settled (text st) /\ settled (vision st)).
Proof.
  destruct (loop000_selection genAI _ catalog000_named)
    as (st & R & A & T & _ & St & Sv).
  rewrite <- A in T.
  unfold Part000.discoverAvailableModels, listing_fails.
  destruct (listModels genAI) as [[[|n names]|]|];
    [right; split; [reflexivity|]; exists st
    |left; exists (n :: names);
     split; [discriminate|]; split; [reflexivity|]
    |right; split; [exact I|]; exists st
    |right; split; [exact I|]; exists st];
    cbv [try_catch bind await ret get set_allModels];
    try change (0 <? List.length (@nil string))%nat with false;
    try change (0 <? List.length (n :: names))%nat with true;
    cbv beta iota;
    try (rewrite R; repeat split; assumption).
  simpl allModels. rewrite identifyAndCategorizeModels_selects.
  simpl. destruct (includes n "vision"); simpl;
    destruct (filter _ names); reflexivity.
Qed.

(** How [discoverAvailableModels] of [part_001] ends when started from the
    initial state: over the listed models when the listing gave any, over
    the models found by the fallback loop otherwise. *)
Lemma discover001_state (genAI : GenerativeAI) :
  exists l t v,
    Part001.discoverAvailableModels genAI initialModels
    = ({| text := t; vision := v; allModels := l |},
       Returned (if negb (truthy t) && negb (truthy v) then false else true)) /\
    t = select_best Part001.getModelScore
          (filter (fun m => negb (includes m "vision")) l) /\
    v = select_best Part001.getModelScore
          (filter (fun m => includes m "vision") l) /\
    (listing_fails genAI -> settled t /\ settled v).
Proof.
  destruct (loop001_selection genAI _ catalog001_named)
    as (st & R & A & T & V & St & Sv).
  rewrite <- A in T, V. destruct st as [t v l]. simpl in *.
  unfold Part001.discoverAvailableModels, listing_fails.
  destruct (listModels genAI) as [[[|n names]|]|];
    cbv [try_catch bind await ret get set_allModels];
    cbn [allModels];
    try (change {| text := text initialModels; vision := vision initialModels;
                   allModels := [] |} with initialModels);
    try change (allModels initialModels) with (@nil string);
    try change (List.length (@nil string) =? 0)%nat with true;
    try change (List.length (n :: names) =? 0)%nat with false;
    cbv beta iota;
    try (rewrite R; exists l, t, v; cbv [text vision];
         destruct (negb (truthy t) && negb (truthy v)); auto).
  rewrite processListedModels_selects.
  cbv [text vision allModels initialModels].
  assert (E : forall l' : list string,
             match l' with
             | [] => None
             | _ :: _ => select_best Part001.getModelScore l'
             end = select_best Part001.getModelScore l')
    by (intros [|? ?]; reflexivity).
  rewrite !E.
  exists (n :: names). do 2 eexists.
  split; [|split; [reflexivity|split; [reflexivity|intros; discriminate]]].
  match goal with
  | |- context [negb (truthy ?a) && negb (truthy ?b)] =>
      destruct (negb (truthy a) && negb (truthy b)); reflexivity
  end.
Qed.

(** ** The chat handler, case by case *)

Section ChatCases.
Import Chat.
Variable rt : Runtime.

Lemma chatCatch_status (e : error) :
  status (chatCatch e) = 401 \/ status (chatCatch e) = 404 \/
  status (chatCatch e) = 429 \/ status (chatCatch e) = 500.
Proof.
  unfold chatCatch.
  destruct (Js.includes (message e) "API key not valid"); [auto|].
  destruct (Js.includes (message e) "not found"); [auto|].
  destruct (Js.includes (message e) "quota"); auto.
Qed.

Lemma chatCatch_rejected (e : error) : rejected (chatCatch e) = true.
Proof.
  unfold chatCatch.
  destruct (Js.includes (message e) "API key not valid"); [reflexivity|].
  destruct (Js.includes (message e) "not found"); [reflexivity|].
  destruct (Js.includes (message e) "quota"); reflexivity.
Qed.

(** The ways the handler ends. *)
Lemma chatHandler_cases (models : AvailableModels) (reqBody : value) :
  (exists e, chatHandler rt models reqBody = (chatCatch e, [])) \/
  (chatHandler rt models reqBody
   = ({| status := 400;
         payload := ErrorBody "Invalid messages format" None |}, [])) \/
  (Js.truthy (text models) = false /\
   status (fst (chatHandler rt models reqBody)) = 503 /\
   snd (chatHandler rt models reqBody) = []) \/
  (exists call generated,
     sendMessage rt call = inl generated /\
     chatHandler rt models reqBody
     = ({| status := 200;
           payload := ContentBody generated (call_model call) |}, [call])) \/
  (exists call msg,
     sendMessage rt call = inr msg /\
     chatHandler rt models reqBody = (chatCatch (mkError msg), [call])).
Proof.
  unfold chatHandler, chatTry.
  destruct (prop rt reqBody "model") as [requested|e];
    [|left; exists e; destruct (prop rt reqBody "messages"); reflexivity].
  destruct (prop rt reqBody "messages") as [messages|e];
    [|left; exists e; reflexivity].
  destruct (negb (truthy messages) || negb (isArray messages));
    [right; left; reflexivity|].
  destruct (Js.truthy (text models)) eqn:T; simpl negb; cbv iota;
    [|right; right; left; auto].
  cbv zeta.
  destruct (stringifiable (modelNameFor models requested));
    simpl negb; cbv iota; [|left; eexists; reflexivity].
  destruct (getGenerativeModel rt (modelNameFor models requested));
    [left; eexists; reflexivity|].
  match goal with
  | |- context [formatMessages rt ?items ?h ?p] =>
      destruct (formatMessages rt items h p) as [[history prompt]|e];
        [|left; exists e; reflexivity]
  end.
  destruct (read_length rt prompt) as [[]|e]; [|left; exists e; reflexivity].
  destruct (startChat rt (modelNameFor models requested) history);
    [left; eexists; reflexivity|].
  match goal with
  | |- context [sendMessage rt ?c] =>
      destruct (sendMessage rt c) as [generated|msg] eqn:S
  end.
  - right; right; right; left. eauto.
  - right; right; right; right. eauto.
Qed.

(** X4: the handler sends at most one request upstream; it sends none
    when it answers 400 or 503; and when it answers 200 it has sent exactly
    one, whose answer and model name it relays. *)
Theorem chat_sends_at_most_one_request
    (models : AvailableModels) (reqBody : value) :
  (List.length (snd (chatHandler rt models reqBody)) <= 1)%nat /\
  (status (fst (chatHandler rt models reqBody)) = 400 \/
   status (fst (chatHandler rt models reqBody)) = 503 ->
   snd (chatHandler rt models reqBody) = []) /\
  (status (fst (chatHandler rt models reqBody)) = 200 ->
   exists call generated,
     snd (chatHandler rt models reqBody) = [call] /\
     sendMessage rt call = inl generated /\
     payload (fst (chatHandler rt models reqBody))
     = ContentBody generated (call_model call)).
Proof.
  destruct (chatHandler_cases models reqBody)
    as [[e H]|[H|[(T & S & C)|[(call & g & S & H)|(call & msg & S & H)]]]];
    try rewrite H; simpl.
  - destruct (chatCatch_status e) as [E|[E|[E|E]]]; rewrite E;
      repeat split; auto; intros; discriminate.
  - repeat split; auto. intros; discriminate.
  - rewrite S, C. simpl. repeat split; auto. intros; discriminate.
  - repeat split; auto.
    + intros [?|?]; discriminate.
    + intros _. exists call, g. auto.
  - destruct (chatCatch_status (mkError msg)) as [E|[E|[E|E]]]; rewrite E;
      repeat split; auto; intros; try discriminate;
      match goal with H : _ \/ _ |- _ => destruct H; discriminate end.
Qed.

Lemma chatHandler_without_text
    (models : AvailableModels) (reqBody : value) (items : list value) :
  prop rt reqBody "messages" = Ok (VArray items) ->
  Js.truthy (text models) = false ->
  chatHandler rt models reqBody
  = ({| status := 503;
        payload :=
          ErrorBody "No working text model available"
            (Some "The server could not find any working Gemini text models") |},
     []).
Proof.
  intros P T.
  assert (exists requested, prop rt reqBody "model" = Ok requested)
    as [requested Pm]
    by (destruct reqBody; simpl in *; try discriminate; eauto).
  unfold chatHandler, chatTry. rewrite P, Pm, T. reflexivity.
Qed.

(** X5: when no text model is selected, every request with an array of
    messages is answered 503 without a request upstream, whether or not it
    names a model of its own. *)
Theorem chat_unavailable_without_text_model
    (models : AvailableModels) (reqBody : value) (items : list value) :
  prop rt reqBody "messages" = Ok (VArray items) ->
  Js.truthy (text models) = false ->
  chatHandler rt models reqBody
  = ({| status := 503;
        payload :=
          ErrorBody "No working text model available"
            (Some "The server could not find any working Gemini text models") |},
     []).
Proof.
  intros P T.
  assert (exists requested, prop rt reqBody "model" = Ok requested)
    as [requested Pm]
    by (destruct reqBody; simpl in *; try discriminate; eauto).
  unfold chatHandler, chatTry. rewrite P, Pm, T. reflexivity.
Qed.

Lemma prop_message (entry : string * string) :
  prop rt (Client.message entry) "role" = Ok (VString (fst entry)) /\
  prop rt (Client.message entry) "content" = Ok (VString (snd entry)).
Proof. split; reflexivity. Qed.

Lemma formatMessages_more (msg next : value) (later : list value)
    (history : list turn) (prompt : value) (r content : value) :
  prop rt msg "role" = Ok r ->
  prop rt msg "content" = Ok content ->
  formatMessages rt (msg :: next :: later) history prompt
  = formatMessages rt (next :: later)
      (history
       ++ [{| role := if strict_eq_string r "assistant" then "model"
                      else "user";
              parts_text := content |}])%list
      prompt.
Proof. intros R C. simpl. rewrite R, C. reflexivity. Qed.

(** What the loop of the handler makes of well-formed messages. *)
Lemma formatMessages_wellformed
    (earlier : list (string * string)) (last : string * string)
    (history : list turn) (prompt : value) :
  formatMessages rt (map Client.message (earlier ++ [last])) history prompt
  = Ok ((history ++ map turn_of earlier)%list,
        if String.eqb (fst last) "user" then VString (snd last) else prompt).
Proof.
  revert history; induction earlier as [|e earlier IH]; intros history.
  - simpl app. simpl map. rewrite app_nil_r.
    unfold formatMessages.
    destruct (prop_message last) as [-> ->]. simpl strict_eq_string.
    destruct (String.eqb (fst last) "user"); reflexivity.
  - rewrite <- app_comm_cons. simpl map.
    destruct (map Client.message (earlier ++ [last])) as [|m ms] eqn:M;
      [destruct earlier; discriminate M|].
    destruct (prop_message e) as [R C].
    rewrite (formatMessages_more _ _ _ _ _ _ _ R C), IH, <- app_assoc.
    reflexivity.
Qed.

Lemma formatMessages_request
    (earlier : list (string * string)) (last : string * string) :
  formatMessages rt (map Client.message (earlier ++ [last])) []
    (VString EmptyString)
  = Ok (map turn_of earlier,
        VString (if String.eqb (fst last) "user" then snd last
                 else EmptyString)).
Proof.
  rewrite formatMessages_wellformed. simpl app.
  destruct (String.eqb (fst last) "user"); reflexivity.
Qed.

(** The handler on well-formed messages, once the model is built. *)
Lemma chatHandler_wellformed
    (models : AvailableModels) (reqBody requested : value)
    (earlier : list (string * string)) (last : string * string) :
  prop rt reqBody "model" = Ok requested ->
  prop rt reqBody "messages"
  = Ok (VArray (map Client.message (earlier ++ [last]))) ->
  Js.truthy (text models) = true ->
  stringifiable (modelNameFor models requested) = true ->
  getGenerativeModel rt (modelNameFor models requested) = None ->
  chatHandler rt models reqBody
  = match startChat rt (modelNameFor models requested)
            (map turn_of earlier) with
    | Some msg => (chatCatch (mkError msg), [])
    | None =>
        let call :=
          {| call_model := modelNameFor models requested;
             call_history := map turn_of earlier;
             call_prompt :=
               VString (if String.eqb (fst last) "user" then snd last
                        else EmptyString) |} in
        match sendMessage rt call with
        | inl generated =>
            ({| status := 200;
                payload :=
                  ContentBody generated (modelNameFor models requested) |},
             [call])
        | inr msg => (chatCatch (mkError msg), [call])
        end
    end.
Proof.
  intros Pm P T S G.
  exact (chatHandler_formatted rt models reqBody requested _ _ _
           Pm P T S G (formatMessages_request earlier last) eq_refl).
Qed.

Lemma formatMessages_null (items : list value) (history : list turn)
    (prompt : value) :
  In VNull items \/ In VUndefined items ->
  formatMessages rt items history prompt
  = Throw (mkError (typeErrorMessage rt)).
Proof.
  revert history; induction items as [|msg later IH]; intros history H.
  - destruct H as [[]|[]].
  - destruct later as [|next later].
    + destruct H as [[->|[]]|[->|[]]]; reflexivity.
    + destruct (prop rt msg "role") as [r|e] eqn:R.
      * assert (exists c, prop rt msg "content" = Ok c) as [c C]
          by (destruct msg; simpl in *; try discriminate; eauto).
        rewrite (formatMessages_more _ _ _ _ _ _ _ R C). apply IH.
        destruct H as [[->|H]|[->|H]]; try discriminate R; auto.
      * destruct msg; simpl in R; try discriminate R; reflexivity.
Qed.

(** A [null] or absent entry among the messages: the handler ends in an
    error response and has sent nothing. *)
Lemma chatHandler_null_entry
    (models : AvailableModels) (reqBody requested : value)
    (items : list value) :
  prop rt reqBody "model" = Ok requested ->
  prop rt reqBody "messages" = Ok (VArray items) ->
  In VNull items \/ In VUndefined items ->
  Js.truthy (text models) = true ->
  (stringifiable (modelNameFor models requested) = true ->
   getGenerativeModel rt (modelNameFor models requested) = None ->
   chatHandler rt models reqBody
   = (chatCatch (mkError (typeErrorMessage rt)), [])) /\
  exists e, chatHandler rt models reqBody = (chatCatch e, []).
Proof.
  intros Pm P N T.
  assert (stringifiable (modelNameFor models requested) = true ->
          getGenerativeModel rt (modelNameFor models requested) = None ->
          chatHandler rt models reqBody
          = (chatCatch (mkError (typeErrorMessage rt)), [])) as H.
  { intros S G. unfold chatHandler, chatTry.
    rewrite Pm, P, T, S, G. simpl negb. simpl orb. cbv iota.
    rewrite (formatMessages_null _ _ _ N). reflexivity. }
  split; [exact H|].
  destruct (stringifiable (modelNameFor models requested)) eqn:S.
  - destruct (getGenerativeModel rt (modelNameFor models requested))
      as [msg|] eqn:G.
    + eexists. exact (chatHandler_model_refused rt _ _ _ _ _ Pm P T S G).
    + eexists. exact (H eq_refl eq_refl).
  - eexists. exact (chatHandler_unprintable_model rt _ _ _ _ Pm P T S).
Qed.

End ChatCases.

Lemma chat_sends_at_most_one_request_witness :
  snd (Chat.chatHandler Scenario.answering initialModels
         Scenario.empty_messages) = [] /\
  exists call generated,
    snd (Chat.chatHandler Scenario.answering Scenario.flash_selected
           Scenario.empty_messages) = [call] /\
    Chat.sendMessage Scenario.answering call = inl generated /\
    Chat.payload
      (fst (Chat.chatHandler Scenario.answering Scenario.flash_selected
              Scenario.empty_messages))
    = Chat.ContentBody generated (Chat.call_model call).
Proof.
  split.
  - apply (chat_sends_at_most_one_request Scenario.answering initialModels
             Scenario.empty_messages). right. reflexivity.
  - apply (chat_sends_at_most_one_request Scenario.answering
             Scenario.flash_selected Scenario.empty_messages). reflexivity.
Defined.

Lemma chat_unavailable_without_text_model_witness :
  Chat.chatHandler Scenario.answering initialModels
    (Client.chatRequestBody [("user", "hello")])
  = ({| Chat.status := 503;
        Chat.payload :=
          Chat.ErrorBody "No working text model available"
            (Some "The server could not find any working Gemini text models") |},
     []).
Proof.
  apply (chat_unavailable_without_text_model Scenario.answering initialModels
           (Client.chatRequestBody [("user", "hello")])
           (map Client.message [("user", "hello")])); reflexivity.
Defined.

Section ChatRequests.
Import Chat.
Variable rt : Runtime.

(** X6: for a request with well-formed messages and a text model selected,
    the handler takes the model the request names, or else the selected
    text model; as history every message but the last, the role
    "assistant" turned into "model" and any other role into "user"; and as
    prompt the content of the last message when its role is "user", the
    empty prompt otherwise.  When that model name can be written to the
    log and the SDK builds the model and starts the chat on that history,
    the handler sends one request upstream, with that model, history and
    prompt.  When the name cannot be written to the log, or the SDK throws
    on building the model or on starting the chat, the handler answers
    from its [catch] block with the error thrown and sends nothing
    upstream. *)
Theorem chat_forwards_history_and_prompt
    (models : AvailableModels) (reqBody requested : value)
    (earlier : list (string * string)) (last : string * string) :
  prop rt reqBody "model" = Ok requested ->
  prop rt reqBody "messages"
  = Ok (VArray (map Client.message (earlier ++ [last]))) ->
  Js.truthy (text models) = true ->
  (stringifiable (modelNameFor models requested) = true ->
   getGenerativeModel rt (modelNameFor models requested) = None ->
   startChat rt (modelNameFor models requested) (map turn_of earlier)
   = None ->
   snd (chatHandler rt models reqBody)
   = [ {| call_model := modelNameFor models requested;
          call_history := map turn_of earlier;
          call_prompt :=
            VString (if String.eqb (fst last) "user" then snd last
                     else EmptyString) |} ]) /\
  (stringifiable (modelNameFor models requested) = false ->
   chatHandler rt models reqBody
   = (chatCatch (mkError (conversionErrorMessage rt)), [])) /\
  (forall msg,
     stringifiable (modelNameFor models requested) = true ->
     getGenerativeModel rt (modelNameFor models requested) = Some msg ->
     chatHandler rt models reqBody = (chatCatch (mkError msg), [])) /\
  (forall msg,
     stringifiable (modelNameFor models requested) = true ->
     getGenerativeModel rt (modelNameFor models requested) = None ->
     startChat rt (modelNameFor models requested) (map turn_of earlier)
     = Some msg ->
     chatHandler rt models reqBody = (chatCatch (mkError msg), [])).
Proof.
  intros Pm P T. repeat split.
  - intros S G C.
    rewrite (chatHandler_wellformed rt _ _ _ _ _ Pm P T S G), C. cbv zeta.
    match goal with
    | |- context [sendMessage rt ?c] => destruct (sendMessage rt c)
    end; reflexivity.
  - intros S. exact (chatHandler_unprintable_model rt _ _ _ _ Pm P T S).
  - intros msg S G.
    exact (chatHandler_model_refused rt _ _ _ _ _ Pm P T S G).
  - intros msg S G C.
    rewrite (chatHandler_wellformed rt _ _ _ _ _ Pm P T S G), C.
    reflexivity.
Qed.

(** X7: a message typed into the page is posted with the whole
    conversation, which begins with the assistant's greeting, and with the
    model the page's script names in every request ("gemini-pro" for the
    client script, "gemini-2.0-flash" for the script inside the page).
    With a text model selected, whichever it is, the handler asks the SDK
    for the named model and starts the chat on a history whose first turn
    is the greeting under the role "model".  If the SDK throws on either,
    the handler answers from its [catch] block with that error and sends
    nothing upstream; otherwise it sends one request upstream, on the
    named model, with the greeting and the earlier conversation as history
    and the typed text as prompt. *)
Theorem page_requests_name_their_model
    (models : AvailableModels) (conversation : list (string * string))
    (typed : string) (body : value) (name : string) :
  body = Client.chatRequestBody (Client.posted conversation typed) /\
  name = "gemini-pro" \/
  body = Client.inlineChatRequestBody (Client.posted conversation typed) /\
  name = "gemini-2.0-flash" ->
  Js.truthy (text models) = true ->
  (forall msg,
     getGenerativeModel rt (VString name) = Some msg ->
     chatHandler rt models body = (chatCatch (mkError msg), [])) /\
  (forall msg,
     getGenerativeModel rt (VString name) = None ->
     startChat rt (VString name)
       ({| role := "model"; parts_text := VString (snd Client.greeting) |}
        :: map turn_of conversation)
     = Some msg ->
     chatHandler rt models body = (chatCatch (mkError msg), [])) /\
  (getGenerativeModel rt (VString name) = None ->
   startChat rt (VString name)
     ({| role := "model"; parts_text := VString (snd Client.greeting) |}
      :: map turn_of conversation)
   = None ->
   snd (chatHandler rt models body)
   = [ {| call_model := VString name;
          call_history :=
            {| role := "model";
               parts_text := VString (snd Client.greeting) |}
            :: map turn_of conversation;
          call_prompt := VString typed |} ]).
Proof.
  intros [[-> ->]|[-> ->]] T.
  - pose proof
      (chatHandler_wellformed rt models
         (Client.chatRequestBody (Client.posted conversation typed))
         (VString "gemini-pro") (Client.greeting :: conversation)
         ("user", typed) eq_refl eq_refl T eq_refl) as W.
    repeat split.
    + intros msg G.
      apply (chatHandler_model_refused rt models _ (VString "gemini-pro")
               (map Client.message (Client.posted conversation typed)) msg);
        [reflexivity | reflexivity | exact T | reflexivity | exact G].
    + intros msg G C. rewrite (W G).
      change (map turn_of (Client.greeting :: conversation))
        with ({| role := "model";
                 parts_text := VString (snd Client.greeting) |}
              :: map turn_of conversation).
      change (modelNameFor models (VString "gemini-pro"))
        with (VString "gemini-pro").
      rewrite C. reflexivity.
    + intros G C. rewrite (W G).
      change (map turn_of (Client.greeting :: conversation))
        with ({| role := "model";
                 parts_text := VString (snd Client.greeting) |}
              :: map turn_of conversation).
      change (modelNameFor models (VString "gemini-pro"))
        with (VString "gemini-pro").
      rewrite C. cbv zeta.
      match goal with
      | |- context [sendMessage rt ?c] => destruct (sendMessage rt c)
      end; reflexivity.
  - pose proof
      (chatHandler_wellformed rt models
         (Client.inlineChatRequestBody (Client.posted conversation typed))
         (VString "gemini-2.0-flash") (Client.greeting :: conversation)
         ("user", typed) eq_refl eq_refl T eq_refl) as W.
    repeat split.
    + intros msg G.
      apply (chatHandler_model_refused rt models _
               (VString "gemini-2.0-flash")
               (map Client.message (Client.posted conversation typed)) msg);
        [reflexivity | reflexivity | exact T | reflexivity | exact G].
    + intros msg G C. rewrite (W G).
      change (map turn_of (Client.greeting :: conversation))
        with ({| role := "model";
                 parts_text := VString (snd Client.greeting) |}
              :: map turn_of conversation).
      change (modelNameFor models (VString "gemini-2.0-flash"))
        with (VString "gemini-2.0-flash").
      rewrite C. reflexivity.
    + intros G C. rewrite (W G).
      change (map turn_of (Client.greeting :: conversation))
        with ({| role := "model";
                 parts_text := VString (snd Client.greeting) |}
              :: map turn_of conversation).
      change (modelNameFor models (VString "gemini-2.0-flash"))
        with (VString "gemini-2.0-flash").
      rewrite C. cbv zeta.
      match goal with
      | |- context [sendMessage rt ?c] => destruct (sendMessage rt c)
      end; reflexivity.
Qed.

(** X8: a [null] (or absent) entry anywhere among the messages is never
    forwarded.  Whatever model the request names and whatever text model
    is selected, the handler sends nothing upstream and answers with an
    error response: 503 when no text model is selected; and when one is,
    the model name can be written to the log and the SDK builds the model,
    the response of the [catch] block for the engine's TypeError on the
    property read. *)
Theorem chat_null_message_not_forwarded
    (models : AvailableModels) (reqBody requested : value)
    (items : list value) :
  prop rt reqBody "model" = Ok requested ->
  prop rt reqBody "messages" = Ok (VArray items) ->
  In VNull items \/ In VUndefined items ->
  snd (chatHandler rt models reqBody) = [] /\
  rejected (fst (chatHandler rt models reqBody)) = true /\
  (Js.truthy (text models) = false ->
   status (fst (chatHandler rt models reqBody)) = 503) /\
  (Js.truthy (text models) = true ->
   stringifiable (modelNameFor models requested) = true ->
   getGenerativeModel rt (modelNameFor models requested) = None ->
   chatHandler rt models reqBody
   = (chatCatch (mkError (typeErrorMessage rt)), [])).
Proof.
  intros Pm P N.
  destruct (Js.truthy (text models)) eqn:T.
  - destruct (chatHandler_null_entry rt models reqBody requested items
                Pm P N T) as [H [e E]].
    split; [rewrite E; reflexivity|].
    split; [rewrite E; apply chatCatch_rejected|].
    split; [discriminate | exact (fun _ => H)].
  - rewrite (chatHandler_without_text rt models reqBody items P T).
    split; [reflexivity|]. split; [reflexivity|].
    split; [reflexivity | discriminate].
Qed.

(** X9: when the request sent upstream fails, the status of the response
    follows the message of the error, in this order of precedence: 401 if
    it contains "API key not valid", 404 if it contains "not found", 429
    if it contains "quota", and 500 with the message as details
    otherwise. *)
Theorem chat_upstream_failure_status
    (models : AvailableModels) (reqBody : value)
    (call : upstream_call) (msg : string) :
  snd (chatHandler rt models reqBody) = [call] ->
  sendMessage rt call = inr msg ->
  (Js.includes msg "API key not valid" = true ->
   status (fst (chatHandler rt models reqBody)) = 401) /\
  (Js.includes msg "API key not valid" = false ->
   Js.includes msg "not found" = true ->
   status (fst (chatHandler rt models reqBody)) = 404) /\
  (Js.includes msg "API key not valid" = false ->
   Js.includes msg "not found" = false ->
   Js.includes msg "quota" = true ->
   status (fst (chatHandler rt models reqBody)) = 429) /\
  (Js.includes msg "API key not valid" = false ->
   Js.includes msg "not found" = false ->
   Js.includes msg "quota" = false ->
   fst (chatHandler rt models reqBody)
   = {| status := 500;
        payload := ErrorBody "An error occurred while processing your request"
                     (Some msg) |}).
Proof.
  intros C S.
  destruct (chatHandler_cases rt models reqBody)
    as [[e H]|[H|[(_ & _ & H)|[(c & g & S' & H)|(c & m & S' & H)]]]];
    rewrite H in C; simpl in C; try discriminate C;
    injection C as ->; rewrite S in S'; try discriminate S'.
  injection S' as <-. rewrite H. unfold chatCatch. simpl.
  repeat split; intros; 
    repeat match goal with E : Js.includes msg _ = _ |- _ => rewrite E; clear E end;
    reflexivity.
Qed.

End ChatRequests.

Lemma chat_forwards_history_and_prompt_witness :
  snd (Chat.chatHandler Scenario.answering Scenario.flash_selected
         Scenario2.user_first)
  = [ {| Chat.call_model := Chat.VString "gemini-2.0-flash";
         Chat.call_history :=
           map turn_of [("user", "hi"); ("assistant", "hello")];
         Chat.call_prompt := Chat.VString "bye" |} ] /\
  Chat.chatHandler Scenario2.validating Scenario.flash_selected
    Scenario2.assistant_first
  = ({| Chat.status := 500;
        Chat.payload :=
          Chat.ErrorBody "An error occurred while processing your request"
            (Some "First content should be with role 'user', got model") |},
     []).
Proof.
  split.
  - exact (proj1
             (chat_forwards_history_and_prompt Scenario.answering
                Scenario.flash_selected Scenario2.user_first
                Chat.VUndefined
                [("user", "hi"); ("assistant", "hello")] ("user", "bye")
                eq_refl eq_refl eq_refl)
             eq_refl eq_refl eq_refl).
  - exact (proj2 (proj2 (proj2
             (chat_forwards_history_and_prompt Scenario2.validating
                Scenario.flash_selected Scenario2.assistant_first
                Chat.VUndefined
                [("assistant", "hello")] ("user", "bye")
                eq_refl eq_refl eq_refl)))
             "First content should be with role 'user', got model"
             eq_refl eq_refl eq_refl).
Defined.

Lemma page_requests_name_their_model_witness :
  snd (Chat.chatHandler Scenario.answering Scenario.flash_selected
         (Client.chatRequestBody
            (Client.posted [("user", "hi"); ("assistant", "hello")] "bye")))
  = [ {| Chat.call_model := Chat.VString "gemini-pro";
         Chat.call_history :=
           {| Chat.role := "model";
              Chat.parts_text := Chat.VString (snd Client.greeting) |}
           :: map turn_of [("user", "hi"); ("assistant", "hello")];
         Chat.call_prompt := Chat.VString "bye" |} ] /\
  Chat.chatHandler Scenario2.validating Scenario.flash_selected
    (Client.inlineChatRequestBody (Client.posted [] "hi"))
  = ({| Chat.status := 500;
        Chat.payload :=
          Chat.ErrorBody "An error occurred while processing your request"
            (Some "First content should be with role 'user', got model") |},
     []).
Proof.
  split.
  - exact (proj2 (proj2
             (page_requests_name_their_model Scenario.answering
                Scenario.flash_selected
                [("user", "hi"); ("assistant", "hello")] "bye"
                (Client.chatRequestBody
                   (Client.posted
                      [("user", "hi"); ("assistant", "hello")] "bye"))
                "gemini-pro" (or_introl (conj eq_refl eq_refl)) eq_refl))
             eq_refl eq_refl).
  - exact (proj1 (proj2
             (page_requests_name_their_model Scenario2.validating
                Scenario.flash_selected [] "hi"
                (Client.inlineChatRequestBody (Client.posted [] "hi"))
                "gemini-2.0-flash"
                (or_intror (conj eq_refl eq_refl)) eq_refl))
             "First content should be with role 'user', got model"
             eq_refl eq_refl).
Defined.

Lemma chat_null_message_not_forwarded_witness :
  Chat.chatHandler Scenario.answering Scenario.flash_selected
    Scenario2.null_entry
  = (Chat.chatCatch
       (Chat.mkError (Chat.typeErrorMessage Scenario.answering)), []) /\
  snd (Chat.chatHandler Scenario2.validating Scenario.flash_selected
         Scenario2.numeric_model_null_entry) = [] /\
  Chat.rejected
    (fst (Chat.chatHandler Scenario2.validating Scenario.flash_selected
            Scenario2.numeric_model_null_entry)) = true.
Proof.
  split; [|split].
  - exact (proj2 (proj2 (proj2
             (chat_null_message_not_forwarded Scenario.answering
                Scenario.flash_selected Scenario2.null_entry
                Chat.VUndefined
                [Client.message ("user", "hi"); Chat.VNull]
                eq_refl eq_refl
                (or_introl (or_intror (or_introl eq_refl))))))
             eq_refl eq_refl eq_refl).
  - exact (proj1
             (chat_null_message_not_forwarded Scenario2.validating
                Scenario.flash_selected Scenario2.numeric_model_null_entry
                (Chat.VNumber 123) [Chat.VNull]
                eq_refl eq_refl (or_introl (or_introl eq_refl)))).
  - exact (proj1 (proj2
             (chat_null_message_not_forwarded Scenario2.validating
                Scenario.flash_selected Scenario2.numeric_model_null_entry
                (Chat.VNumber 123) [Chat.VNull]
                eq_refl eq_refl (or_introl (or_introl eq_refl))))).
Defined.

Lemma chat_upstream_failure_status_witness :
  Chat.status
    (fst (Chat.chatHandler Scenario2.exhausted Scenario.flash_selected
            (Client.chatRequestBody [("user", "hi")]))) = 429.
Proof.
  apply (chat_upstream_failure_status Scenario2.exhausted
           Scenario.flash_selected
           (Client.chatRequestBody [("user", "hi")])
           {| Chat.call_model := Chat.VString "gemini-pro";
              Chat.call_history := [];
              Chat.call_prompt := Chat.VString "hi" |}
           "quota exceeded for this project"); reflexivity.
Defined.

(** ** What discovery leaves behind *)

(** X10: after discovery with [part_001], started from the initial state,
    a selected text model never has "vision" in its name, a selected
    vision model always has, and both are among [allModels]. *)
Theorem discovery001_keeps_kinds_apart (genAI : GenerativeAI) :
  (forall t,
     text (fst (Part001.discoverAvailableModels genAI initialModels)) = Some t ->
     includes t "vision" = false /\
     In t (allModels
             (fst (Part001.discoverAvailableModels genAI initialModels)))) /\
  (forall v,
     vision (fst (Part001.discoverAvailableModels genAI initialModels))
     = Some v ->
     includes v "vision" = true /\
     In v (allModels
             (fst (Part001.discoverAvailableModels genAI initialModels)))).
Proof.
  destruct (discover001_state genAI) as (l & t & v & -> & T & V & _).
  simpl. subst t v. split; intros m S; apply select_best_In in S;
    apply filter_In in S; destruct S as [I F]; split; auto.
  apply negb_true_iff. exact F.
Qed.

Lemma discovery001_keeps_kinds_apart_witness :
  includes "gemini-2.0-flash" "vision" = false /\
  In "gemini-2.0-flash"
    (allModels
       (fst (Part001.discoverAvailableModels Scenario.two_multimodal
               initialModels))).
Proof.
  apply (discovery001_keeps_kinds_apart Scenario.two_multimodal).
  reflexivity.
Defined.

(** X11: discovery with [part_000], started from the initial state,
    returns [true] exactly when it leaves [allModels] non-empty, and then
    a text model is selected that is one of [allModels] and scores at
    least as high as every one of them. *)
Theorem discovery000_text_is_best
    (genAI : GenerativeAI) (st : AvailableModels) (found : bool) :
  Part000.discoverAvailableModels genAI initialModels
  = (st, Returned found) ->
  (found = true <-> allModels st <> []) /\
  (found = true ->
   exists t,
     text st = Some t /\ In t (allModels st) /\
     forall m, In m (allModels st) ->
               Part000.getModelScore m <= Part000.getModelScore t).
Proof.
  intros D.
  assert (B : forall l : list string,
            select_best Part000.getModelScore l = text st ->
            l = allModels st -> l <> [] ->
            exists t,
              text st = Some t /\ In t (allModels st) /\
              forall m, In m (allModels st) ->
                        Part000.getModelScore m <= Part000.getModelScore t).
  { intros l S <- N.
    destruct (select_best Part000.getModelScore l) as [t|] eqn:E.
    - exists t. split; [auto|]. split.
      + exact (select_best_In _ _ _ E).
      + exact (select_best_max _ _ _ E).
    - apply select_best_nil_iff in E. contradiction. }
  destruct (discover000_cases genAI)
    as [(names & N & _ & R)|(_ & st' & R & _ & T & _)];
    rewrite R in D; injection D as <- <-.
  - simpl. split; [tauto|]. intros _. apply (B names); auto.
  - assert (Lm : forall l : list string,
               (0 <? List.length l)%nat = true <-> l <> []).
    { intros [|? ?]; simpl; split; intros H;
        try discriminate; try reflexivity; congruence. }
    split; [apply Lm|].
    intros E. apply (B (allModels st')); auto. apply Lm, E.
Qed.

Lemma discovery000_text_is_best_witness :
  exists t,
    text (fst (Part000.discoverAvailableModels Scenario.two_multimodal
                 initialModels)) = Some t /\
    In t (allModels
            (fst (Part000.discoverAvailableModels Scenario.two_multimodal
                    initialModels))) /\
    forall m,
      In m (allModels
              (fst (Part000.discoverAvailableModels Scenario.two_multimodal
                      initialModels))) ->
      Part000.getModelScore m <= Part000.getModelScore t.
Proof.
  apply (discovery000_text_is_best Scenario.two_multimodal _ true);
    reflexivity.
Defined.

(** X12: when the listing returns at least one model, discovery sends no
    probe: its outcome does not depend on how the generative API would
    answer a liveness or multimodal request, in either server file. *)
Theorem listed_models_are_not_probed
    (names : list string) (st : AvailableModels)
    (probeText probeImage probeText' probeImage' : nat -> completion unit) :
  names <> [] ->
  Part000.discoverAvailableModels
    {| listModels := Returned (Some names);
       generateText := probeText; generateImage := probeImage |} st
  = Part000.discoverAvailableModels
      {| listModels := Returned (Some names);
         generateText := probeText'; generateImage := probeImage' |} st /\
  Part001.discoverAvailableModels
    {| listModels := Returned (Some names);
       generateText := probeText; generateImage := probeImage |} st
  = Part001.discoverAvailableModels
      {| listModels := Returned (Some names);
         generateText := probeText'; generateImage := probeImage' |} st.
Proof.
  intros N. destruct names as [|n names]; [contradiction|].
  unfold Part000.discoverAvailableModels, Part001.discoverAvailableModels.
  cbv [try_catch bind await ret get set_allModels listModels].
  cbn [allModels].
  change (0 <? List.length (n :: names))%nat with true.
  change (List.length (n :: names) =? 0)%nat with false.
  cbv beta iota.
  rewrite identifyAndCategorizeModels_selects. split; reflexivity.
Qed.

Lemma listed_models_are_not_probed_witness :
  Part000.discoverAvailableModels
    {| listModels := Returned (Some ["gemini-2.0-flash"]);
       generateText := fun _ => Thrown; generateImage := fun _ => Thrown |}
    initialModels
  = Part000.discoverAvailableModels
      {| listModels := Returned (Some ["gemini-2.0-flash"]);
         generateText := fun _ => Returned tt;
         generateImage := fun _ => Returned tt |}
      initialModels.
Proof.
  apply (listed_models_are_not_probed ["gemini-2.0-flash"] initialModels).
  discriminate.
Defined.

(** X13: when the listing yields no model and the fallback loop of
    [part_000] finds one, the text slot holds a non-empty name, so the
    chat handler never answers 503 afterwards. *)
Theorem fallback_success_serves_chat
    (genAI : GenerativeAI) (st : AvailableModels) :
  listing_fails genAI ->
  Part000.discoverAvailableModels genAI initialModels
  = (st, Returned true) ->
  truthy (text st) = true /\
  forall rt reqBody,
    Chat.status (fst (Chat.chatHandler rt st reqBody)) <> 503.
Proof.
  intros L D.
  assert (T : truthy (text st) = true).
  { destruct (discover000_cases genAI)
      as [(names & N & Li & _)|(_ & st' & R & _ & T & St & _)].
    - unfold listing_fails in L. rewrite Li in L. contradiction.
    - rewrite R in D. injection D as <- E.
      rewrite (settled_truthy _ St).
      destruct (text st') eqn:X; [reflexivity|].
      symmetry in T. apply select_best_nil_iff in T.
      rewrite T in E. discriminate E. }
  split; [exact T|]. intros rt reqBody.
  destruct (chatHandler_cases rt st reqBody)
    as [[e H]|[H|[(F & _)|[(c & g & _ & H)|(c & m & _ & H)]]]];
    try rewrite H; simpl; try discriminate.
  - destruct (chatCatch_status e) as [E|[E|[E|E]]]; rewrite E; discriminate.
  - rewrite T in F. discriminate F.
  - destruct (chatCatch_status (Chat.mkError m)) as [E|[E|[E|E]]];
      rewrite E; discriminate.
Qed.

Lemma fallback_success_serves_chat_witness :
  truthy
    (text (fst (Part000.discoverAvailableModels Scenario2.only_pro_vision000
                  initialModels))) = true /\
  forall rt reqBody,
    Chat.status
      (fst (Chat.chatHandler rt
              (fst (Part000.discoverAvailableModels
                      Scenario2.only_pro_vision000 initialModels))
              reqBody)) <> 503.
Proof.
  apply (fallback_success_serves_chat Scenario2.only_pro_vision000).
  - exact I.
  - reflexivity.
Defined.

(** X14: when the listing yields no model and every model the fallback
    loop of [part_001] finds is vision-named, discovery still returns
    [true], but it selects no text model, so every chat request with an
    array of messages is answered 503. *)
Theorem vision_only_discovery001_leaves_chat_unavailable
    (genAI : GenerativeAI) :
  listing_fails genAI ->
  discovered genAI (indexed Part001.potentialModels) <> [] ->
  Forall (fun m => includes m "vision" = true)
    (discovered genAI (indexed Part001.potentialModels)) ->
  snd (Part001.discoverAvailableModels genAI initialModels) = Returned true /\
  text (fst (Part001.discoverAvailableModels genAI initialModels)) = None /\
  forall rt reqBody items,
    Chat.prop rt reqBody "messages" = Chat.Ok (Chat.VArray items) ->
    Chat.status
      (fst (Chat.chatHandler rt
              (fst (Part001.discoverAvailableModels genAI initialModels))
              reqBody)) = 503.
Proof.
  intros L N F.
  destruct (loop001_selection genAI _ catalog001_named)
    as (st & R & A & T & V & St & Sv).
  assert (D : Part001.discoverAvailableModels genAI initialModels
              = (st, Returned (if negb (truthy (text st))
                                  && negb (truthy (vision st))
                               then false else true))).
  { unfold Part001.discoverAvailableModels, listing_fails in *.
    destruct (listModels genAI) as [[[|n names]|]|]; try discriminate L;
      cbv [try_catch bind await ret get set_allModels];
      cbn [allModels];
      try (change {| text := text initialModels;
                     vision := vision initialModels;
                     allModels := [] |} with initialModels);
      change (allModels initialModels) with (@nil string);
      change (List.length (@nil string) =? 0)%nat with true;
      cbv beta iota; rewrite R;
      destruct (negb (truthy (text st)) && negb (truthy (vision st)));
      reflexivity. }
  assert (Tn : text st = None).
  { rewrite T. apply select_best_nil_iff.
    clear - F.
    induction (discovered genAI (indexed Part001.potentialModels))
      as [|m l IH]; [reflexivity|].
    simpl. rewrite (Forall_inv F). simpl. apply IH.
    exact (Forall_inv_tail F). }
  assert (Vs : truthy (vision st) = true).
  { rewrite (settled_truthy _ Sv). rewrite V.
    destruct (select_best Part001.getModelScore
                (filter (fun m => includes m "vision")
                   (discovered genAI (indexed Part001.potentialModels))))
      eqn:E; [reflexivity|].
    apply select_best_nil_iff in E.
    destruct (discovered genAI (indexed Part001.potentialModels))
      as [|m l]; [contradiction|].
    apply Forall_inv in F. simpl in E. rewrite F in E. discriminate E. }
  rewrite D. simpl fst. simpl snd. rewrite Tn, Vs. simpl.
  split; [reflexivity|]. split; [reflexivity|].
  intros rt reqBody items P.
  rewrite (chatHandler_without_text rt st reqBody items P);
    [reflexivity | rewrite Tn; reflexivity].
Qed.

Lemma vision_only_discovery001_leaves_chat_unavailable_witness :
  snd (Part001.discoverAvailableModels Scenario2.only_pro_vision001
         initialModels) = Returned true /\
  text (fst (Part001.discoverAvailableModels Scenario2.only_pro_vision001
               initialModels)) = None /\
  forall rt reqBody items,
    Chat.prop rt reqBody "messages" = Chat.Ok (Chat.VArray items) ->
    Chat.status
      (fst (Chat.chatHandler rt
              (fst (Part001.discoverAvailableModels
                      Scenario2.only_pro_vision001 initialModels))
              reqBody)) = 503.
Proof.
  apply (vision_only_discovery001_leaves_chat_unavailable
           Scenario2.only_pro_vision001).
  - exact I.
  - vm_compute. discriminate.
  - vm_compute. repeat constructor.
Defined.

(** Discovery catches whatever is thrown inside it. *)
Lemma discovery_returns (genAI : GenerativeAI) (st : AvailableModels) :
  (exists st' found,
     Part000.discoverAvailableModels genAI st = (st', Returned found)) /\
  (exists st' found,
     Part001.discoverAvailableModels genAI st = (st', Returned found)).
Proof.
  unfold Part000.discoverAvailableModels, Part001.discoverAvailableModels.
  split;
    match goal with
    | |- exists st' found, try_catch ?body _ st = _ =>
        let E := fresh "E" in
        destruct (body st) as [st' [found|]] eqn:E;
          unfold try_catch at 1; rewrite E; unfold ret; eauto
    end.
Qed.

(** X15: [testApiKey] never throws; it ends in the state discovery ends
    in and returns what discovery returns, in both server files. *)
Theorem testApiKey_is_discovery (genAI : GenerativeAI) (st : AvailableModels) :
  (exists st' valid, Startup.testApiKey000 genAI st = (st', Returned valid)) /\
  Startup.testApiKey000 genAI st
  = Part000.discoverAvailableModels genAI st /\
  (exists st' valid, Startup.testApiKey001 genAI st = (st', Returned valid)) /\
  Startup.testApiKey001 genAI st
  = Part001.discoverAvailableModels genAI st.
Proof.
  destruct (discovery_returns genAI st)
    as [(st0 & b0 & E0) (st1 & b1 & E1)].
  unfold Startup.testApiKey000, Startup.testApiKey001, Startup.testApiKey,
    try_catch, bind, ret, throw.
  rewrite E0, E1. destruct b0, b1; repeat split; eauto.
Qed.

(** ** The image analysis handlers *)

Section ImageHandlers.
Import Image.
Variable rt : Runtime.

(** The ways the handler of [part_000] ends. *)
Lemma analyzeImage000_cases (models : AvailableModels)
    (file : option File) (promptField : option string) :
  (snd (Image000.analyzeImage rt models file promptField) = [] /\
   (status (fst (Image000.analyzeImage rt models file promptField)) = 400 \/
    status (fst (Image000.analyzeImage rt models file promptField)) = 503) /\
   (file = None \/ Js.truthy (vision models) = false)) \/
  (exists f calls text,
     file = Some f /\
     Image000.analyzeImage rt models file promptField
     = ({| status := 200;
           payload := ContentBody text (visionName models) |}, calls) /\
     Image000.emptyAnswer rt text = false /\
     (calls = [promptFirst rt models f (promptOrDefault promptField)] \/
      calls = [promptFirst rt models f (promptOrDefault promptField);
               imageFirst rt models f (promptOrDefault promptField)]) /\
     exists last, In last calls /\ generateContent rt last = inl text) \/
  (exists f calls e,
     file = Some f /\
     Image000.analyzeImage rt models file promptField
     = (Image000.analyzeCatch e, calls) /\
     (calls = [promptFirst rt models f (promptOrDefault promptField)] \/
      calls = [promptFirst rt models f (promptOrDefault promptField);
               imageFirst rt models f (promptOrDefault promptField)])).
Proof.
  unfold Image000.analyzeImage, Image000.analyzeTry.
  destruct file as [f|]; [|left; simpl; auto].
  destruct (Js.truthy (vision models)) eqn:V; simpl negb; cbv iota;
    [|left; simpl; auto].
  unfold Image000.askModel.
  fold (promptFirst rt models f (promptOrDefault promptField)).
  fold (imageFirst rt models f (promptOrDefault promptField)).
  destruct (generateContent rt (promptFirst rt models f _))
    as [text1|msg1] eqn:G1.
  - destruct (Image000.emptyAnswer rt text1) eqn:E1.
    + destruct (generateContent rt (imageFirst rt models f _))
        as [text2|msg2] eqn:G2.
      * destruct (Image000.emptyAnswer rt text2) eqn:E2.
        -- right; right. do 3 eexists. split; [reflexivity|].
           split; [reflexivity|]. auto.
        -- right; left. do 3 eexists. split; [reflexivity|].
           split; [reflexivity|]. split; [exact E2|]. split; [auto|].
           eexists. split; [right; left; reflexivity|]. exact G2.
      * right; right. do 3 eexists. split; [reflexivity|].
        split; [reflexivity|]. auto.
    + right; left. do 3 eexists. split; [reflexivity|].
      split; [reflexivity|]. split; [exact E1|]. split; [auto|].
      eexists. split; [left; reflexivity|]. exact G1.
  - right; right. do 3 eexists. split; [reflexivity|].
    split; [reflexivity|]. auto.
Qed.

(** X16: the handler of [part_000] sends at most two requests upstream,
    and the text of a successful response is never empty or blank: it is
    the answer to the last request sent, given on the selected vision
    model. *)
Theorem image_answer_never_blank (models : AvailableModels)
    (file : option File) (promptField : option string) :
  (List.length (snd (Image000.analyzeImage rt models file promptField))
   <= 2)%nat /\
  forall text model,
    payload (fst (Image000.analyzeImage rt models file promptField))
    = ContentBody text model ->
    text <> EmptyString /\
    trim rt text <> EmptyString /\
    model = visionName models /\
    exists call,
      In call (snd (Image000.analyzeImage rt models file promptField)) /\
      generateContent rt call = inl text.
Proof.
  destruct (analyzeImage000_cases models file promptField)
    as [(C & S & W)|[(f & calls & text & _ & H & E & L & last & I & G)
                    |(f & calls & e & _ & H & L)]].
  - rewrite C. split; [simpl; lia|]. intros text model P.
    unfold Image000.analyzeImage, Image000.analyzeTry in P.
    destruct W as [-> | V]; [discriminate P|].
    destruct file; [|discriminate P].
    rewrite V in P. discriminate P.
  - rewrite H. simpl. split; [destruct L as [-> | ->]; simpl; lia|].
    intros text' model P. injection P as <- <-.
    unfold Image000.emptyAnswer in E. apply orb_false_iff in E.
    destruct E as [E1 E2]. repeat split.
    + intros ->. discriminate E1.
    + intros T. rewrite T in E2. discriminate E2.
    + eauto.
  - rewrite H. simpl. split; [destruct L as [-> | ->]; simpl; lia|].
    intros text model P. discriminate P.
Qed.

(** X17: with a file and a vision model, the handler of [part_000] first
    sends the prompt followed by the image.  A non-blank answer is relayed
    with status 200 and nothing more is sent; a blank answer makes it send
    the same image and prompt once more, image first; an error of the
    first request is not retried. *)
Theorem image_retry_swaps_the_parts (models : AvailableModels)
    (f : File) (promptField : option string) :
  Js.truthy (vision models) = true ->
  (forall text,
     generateContent rt (promptFirst rt models f (promptOrDefault promptField))
     = inl text ->
     Image000.emptyAnswer rt text = false ->
     Image000.analyzeImage rt models (Some f) promptField
     = ({| status := 200;
           payload := ContentBody text (visionName models) |},
        [promptFirst rt models f (promptOrDefault promptField)])) /\
  (forall text,
     generateContent rt (promptFirst rt models f (promptOrDefault promptField))
     = inl text ->
     Image000.emptyAnswer rt text = true ->
     snd (Image000.analyzeImage rt models (Some f) promptField)
     = [promptFirst rt models f (promptOrDefault promptField);
        imageFirst rt models f (promptOrDefault promptField)]) /\
  (forall msg,
     generateContent rt (promptFirst rt models f (promptOrDefault promptField))
     = inr msg ->
     snd (Image000.analyzeImage rt models (Some f) promptField)
     = [promptFirst rt models f (promptOrDefault promptField)]).
Proof.
  intros V.
  unfold Image000.analyzeImage, Image000.analyzeTry, Image000.askModel.
  rewrite V. simpl negb. cbv iota.
  fold (promptFirst rt models f (promptOrDefault promptField)).
  fold (imageFirst rt models f (promptOrDefault promptField)).
  repeat split.
  - intros text G E. rewrite G, E. reflexivity.
  - intros text G E. rewrite G, E.
    destruct (generateContent rt (imageFirst rt models f _)) as [t2|m2];
      [destruct (Image000.emptyAnswer rt t2)|]; reflexivity.
  - intros msg G. rewrite G. reflexivity.
Qed.

(** X18: the image route of [part_000] answers with status 200, 400, 503
    or 500 only, and every failure of a request upstream is answered with
    status 500 and the error "Image analysis failed", the kind of failure
    showing in the details alone.  With an upload that succeeded, a file
    and a vision model selected:
    - when the first request fails, the details are the message the inner
      [catch] block makes of the error, and nothing more is sent;
    - when the first answer is blank and the second request fails, the
      details are the message made of the second error;
    - when both answers are blank, the details are
      "API error: Received empty response from API even after retry". *)
Theorem image_failures_all_answer_500 (models : AvailableModels)
    (err : option UploadError) (file : option File)
    (promptField : option string) :
  (status (fst (Image000.analyzeRoute rt models err file promptField)) = 200 \/
   status (fst (Image000.analyzeRoute rt models err file promptField)) = 400 \/
   status (fst (Image000.analyzeRoute rt models err file promptField)) = 503 \/
   exists details hints,
     fst (Image000.analyzeRoute rt models err file promptField)
     = {| status := 500;
          payload := ErrorBody "Image analysis failed" (Some details)
                       (Some hints) |}) /\
  forall f,
    err = None -> file = Some f -> Js.truthy (vision models) = true ->
    (forall msg,
       generateContent rt
         (promptFirst rt models f (promptOrDefault promptField))
       = inr msg ->
       Image000.analyzeRoute rt models err file promptField
       = ({| status := 500;
             payload :=
               ErrorBody "Image analysis failed"
                 (Some (Chat.message
                          (Image000.apiCatch f models (Chat.mkError msg))))
                 (Some
                    [ "Check that your API key has access to vision models";
                      "Verify the image format is supported (PNG, JPEG, WEBP, HEIC, HEIF)";
                      "Try a smaller or different image";
                      "Make sure the image content complies with content safety policies" ]) |},
          [promptFirst rt models f (promptOrDefault promptField)])) /\
    (forall text msg,
       generateContent rt
         (promptFirst rt models f (promptOrDefault promptField))
       = inl text ->
       Image000.emptyAnswer rt text = true ->
       generateContent rt
         (imageFirst rt models f (promptOrDefault promptField))
       = inr msg ->
       Image000.analyzeRoute rt models err file promptField
       = ({| status := 500;
             payload :=
               ErrorBody "Image analysis failed"
                 (Some (Chat.message
                          (Image000.apiCatch f models (Chat.mkError msg))))
                 (Some
                    [ "Check that your API key has access to vision models";
                      "Verify the image format is supported (PNG, JPEG, WEBP, HEIC, HEIF)";
                      "Try a smaller or different image";
                      "Make sure the image content complies with content safety policies" ]) |},
          [promptFirst rt models f (promptOrDefault promptField);
           imageFirst rt models f (promptOrDefault promptField)])) /\
    (forall text again,
       generateContent rt
         (promptFirst rt models f (promptOrDefault promptField))
       = inl text ->
       Image000.emptyAnswer rt text = true ->
       generateContent rt
         (imageFirst rt models f (promptOrDefault promptField))
       = inl again ->
       Image000.emptyAnswer rt again = true ->
       Image000.analyzeRoute rt models err file promptField
       = ({| status := 500;
             payload :=
               ErrorBody "Image analysis failed"
                 (Some "API error: Received empty response from API even after retry")
                 (Some
                    [ "Check that your API key has access to vision models";
                      "Verify the image format is supported (PNG, JPEG, WEBP, HEIC, HEIF)";
                      "Try a smaller or different image";
                      "Make sure the image content complies with content safety policies" ]) |},
          [promptFirst rt models f (promptOrDefault promptField);
           imageFirst rt models f (promptOrDefault promptField)])).
Proof.
  split.
  - unfold Image000.analyzeRoute, uploadMiddleware.
    destruct err as [[[c|] m]|]; simpl;
      try (destruct (String.eqb c "LIMIT_FILE_SIZE"); simpl; auto; fail);
      auto.
    destruct (analyzeImage000_cases models file promptField)
      as [(_ & [S|S] & _)|[(f & calls & text & _ & H & _)
                          |(f & calls & e & _ & H & _)]];
      try rewrite H; simpl; auto.
    right; right; right. unfold Image000.analyzeCatch. eauto.
  - intros f -> -> V.
    unfold Image000.analyzeRoute, uploadMiddleware, Image000.analyzeImage,
      Image000.analyzeTry, Image000.askModel.
    rewrite V. simpl negb. cbv iota.
    fold (promptFirst rt models f (promptOrDefault promptField)).
    fold (imageFirst rt models f (promptOrDefault promptField)).
    split; [|split].
    + intros msg G. rewrite G. reflexivity.
    + intros text msg G E G2. rewrite G, E, G2. reflexivity.
    + intros text again G E G2 E2. rewrite G, E, G2, E2. reflexivity.
Qed.

(** X19: in both server files the image route sends nothing upstream when
    the upload failed, when no file arrived, or when no vision model is
    selected; it answers 400 in the first two cases and 503 in the
    third. *)
Theorem image_route_gates (models : AvailableModels)
    (err : option UploadError) (file : option File)
    (promptField : option string) :
  (err <> None \/ file = None ->
   Image000.analyzeRoute rt models err file promptField
   = Image001.analyzeRoute rt models err file promptField /\
   status (fst (Image000.analyzeRoute rt models err file promptField)) = 400 /\
   snd (Image000.analyzeRoute rt models err file promptField) = []) /\
  (err = None -> file <> None -> Js.truthy (vision models) = false ->
   status (fst (Image000.analyzeRoute rt models err file promptField)) = 503 /\
   snd (Image000.analyzeRoute rt models err file promptField) = [] /\
   status (fst (Image001.analyzeRoute rt models err file promptField)) = 503 /\
   snd (Image001.analyzeRoute rt models err file promptField) = []).
Proof.
  unfold Image000.analyzeRoute, Image001.analyzeRoute, uploadMiddleware,
    Image000.analyzeImage, Image001.analyzeImage,
    Image000.analyzeTry, Image001.analyzeTry.
  split.
  - intros [E|F].
    + destruct err as [[[c|] m]|]; [| |contradiction]; simpl;
        try destruct (String.eqb c "LIMIT_FILE_SIZE"); auto.
    + subst file. destruct err as [[[c|] m]|]; simpl;
        try destruct (String.eqb c "LIMIT_FILE_SIZE"); auto.
  - intros -> F V. destruct file; [|contradiction].
    simpl. rewrite V. simpl. auto.
Qed.

(** X20: with a file and a vision model, the handler of [part_001] sends
    exactly one request upstream, the prompt followed by the image, and
    relays its answer with status 200 as it is, be it empty; an error that
    says the request "exceeds the maximum size" is answered 400. *)
Theorem image001_single_request (models : AvailableModels)
    (f : File) (promptField : option string) :
  Js.truthy (vision models) = true ->
  snd (Image001.analyzeImage rt models (Some f) promptField)
  = [promptFirst rt models f (promptOrDefault promptField)] /\
  (forall text,
     generateContent rt (promptFirst rt models f (promptOrDefault promptField))
     = inl text ->
     fst (Image001.analyzeImage rt models (Some f) promptField)
     = {| status := 200;
          payload := ContentBody text (visionName models) |}) /\
  (forall msg,
     generateContent rt (promptFirst rt models f (promptOrDefault promptField))
     = inr msg ->
     Js.includes msg "exceeds the maximum size" = true ->
     fst (Image001.analyzeImage rt models (Some f) promptField)
     = {| status := 400;
          payload :=
            ErrorBody "An error occurred while processing your image"
              (Some "Image processing error: Image size too large for the API. Please use a smaller image.")
              None |}).
Proof.
  intros V.
  unfold Image001.analyzeImage, Image001.analyzeTry.
  rewrite V. simpl negb. cbv iota.
  fold (promptFirst rt models f (promptOrDefault promptField)).
  repeat split.
  - destruct (generateContent rt (promptFirst rt models f _)); reflexivity.
  - intros text G. rewrite G. reflexivity.
  - intros msg G S. rewrite G. unfold Image001.apiCatch.
    simpl Chat.message. rewrite S. reflexivity.
Qed.

End ImageHandlers.

Lemma image_answer_never_blank_witness :
  "A cat" <> EmptyString /\
  Image.trim Scenario2.shy "A cat" <> EmptyString /\
  "gemini-pro-vision" = Image.visionName Scenario2.vision_selected /\
  exists call,
    In call (snd (Image000.analyzeImage Scenario2.shy
                    Scenario2.vision_selected (Some Scenario2.photo) None)) /\
    Image.generateContent Scenario2.shy call = inl "A cat".
Proof.
  apply (proj2 (image_answer_never_blank Scenario2.shy
                  Scenario2.vision_selected (Some Scenario2.photo) None)
           "A cat" "gemini-pro-vision").
  reflexivity.
Defined.

Lemma image_retry_swaps_the_parts_witness :
  snd (Image000.analyzeImage Scenario2.shy Scenario2.vision_selected
         (Some Scenario2.photo) None)
  = [promptFirst Scenario2.shy Scenario2.vision_selected Scenario2.photo
       (Image.promptOrDefault None);
     imageFirst Scenario2.shy Scenario2.vision_selected Scenario2.photo
       (Image.promptOrDefault None)].
Proof.
  apply (proj1 (proj2 (image_retry_swaps_the_parts Scenario2.shy
                         Scenario2.vision_selected Scenario2.photo None
                         eq_refl))
           EmptyString); reflexivity.
Defined.

Lemma image_failures_all_answer_500_witness :
  Image000.analyzeRoute Scenario2.oversize Scenario2.vision_selected None
    (Some Scenario2.photo) None
  = ({| Image.status := 500;
        Image.payload :=
          Image.ErrorBody "Image analysis failed"
            (Some "Image size too large. Per documentation, inline images should be under 20MB. For larger images, use the File API.")
            (Some
               [ "Check that your API key has access to vision models";
                 "Verify the image format is supported (PNG, JPEG, WEBP, HEIC, HEIF)";
                 "Try a smaller or different image";
                 "Make sure the image content complies with content safety policies" ]) |},
     [promptFirst Scenario2.oversize Scenario2.vision_selected
        Scenario2.photo (Image.promptOrDefault None)]) /\
  Image000.analyzeRoute Scenario2.mute Scenario2.vision_selected None
    (Some Scenario2.photo) None
  = ({| Image.status := 500;
        Image.payload :=
          Image.ErrorBody "Image analysis failed"
            (Some "API error: Received empty response from API even after retry")
            (Some
               [ "Check that your API key has access to vision models";
                 "Verify the image format is supported (PNG, JPEG, WEBP, HEIC, HEIF)";
                 "Try a smaller or different image";
                 "Make sure the image content complies with content safety policies" ]) |},
     [promptFirst Scenario2.mute Scenario2.vision_selected
        Scenario2.photo (Image.promptOrDefault None);
      imageFirst Scenario2.mute Scenario2.vision_selected
        Scenario2.photo (Image.promptOrDefault None)]).
Proof.
  split.
  - exact (proj1
             (proj2 (image_failures_all_answer_500 Scenario2.oversize
                       Scenario2.vision_selected None
                       (Some Scenario2.photo) None)
                Scenario2.photo eq_refl eq_refl eq_refl)
             "Request payload exceeds the maximum size" eq_refl).
  - exact (proj2 (proj2
             (proj2 (image_failures_all_answer_500 Scenario2.mute
                       Scenario2.vision_selected None
                       (Some Scenario2.photo) None)
                Scenario2.photo eq_refl eq_refl eq_refl))
             EmptyString EmptyString eq_refl eq_refl eq_refl eq_refl).
Defined.

Lemma image_route_gates_witness :
  Image.status
    (fst (Image000.analyzeRoute Scenario2.shy initialModels None
            (Some Scenario2.photo) None)) = 503 /\
  snd (Image000.analyzeRoute Scenario2.shy initialModels None
         (Some Scenario2.photo) None) = [] /\
  Image.status
    (fst (Image001.analyzeRoute Scenario2.shy initialModels None
            (Some Scenario2.photo) None)) = 503 /\
  snd (Image001.analyzeRoute Scenario2.shy initialModels None
         (Some Scenario2.photo) None) = [].
Proof.
  apply (proj2 (image_route_gates Scenario2.shy initialModels None
                  (Some Scenario2.photo) None));
    [reflexivity | discriminate | reflexivity].
Defined.

Lemma image001_single_request_witness :
  fst (Image001.analyzeImage Scenario2.oversize Scenario2.vision_selected
         (Some Scenario2.photo) (Some "What is this?"))
  = {| Image.status := 400;
       Image.payload :=
         Image.ErrorBody "An error occurred while processing your image"
           (Some "Image processing error: Image size too large for the API. Please use a smaller image.")
           None |}.
Proof.
  apply (proj2 (proj2 (image001_single_request Scenario2.oversize
                         Scenario2.vision_selected Scenario2.photo
                         (Some "What is this?") eq_refl))
           "Request payload exceeds the maximum size"); reflexivity.
Defined.

(** ** The upload filter and the check of the page *)

Lemma prefix_includes (needle hay : string) :
  String.prefix needle hay = true -> includes hay needle = true.
Proof.
  intros H. destruct hay as [|c hay].
  - change (includes EmptyString needle)
      with (String.prefix needle EmptyString || false).
    rewrite H. reflexivity.
  - change (includes (String c hay) needle)
      with (String.prefix needle (String c hay) || includes hay needle).
    rewrite H. reflexivity.
Qed.

Lemma prefix_shorter (p q hay : string) :
  String.prefix (p ++ q) hay = true -> String.prefix p hay = true.
Proof.
  revert hay; induction p as [|c p IH]; intros hay H.
  - destruct hay; reflexivity.
  - destruct hay as [|d hay]; simpl in *; [discriminate|].
    destruct (Ascii.ascii_dec c d); [auto | discriminate].
Qed.

(** X21: every file the server's upload filter accepts has a type the
    page accepts too; so a file that the page turns away for its type
    would have been rejected by the server as well. *)
Theorem upload_filter_within_page_check (file : Image.File) :
  Image.fileFilter file = None ->
  includes (Image.mimetype file) "image" = true /\
  (Image.size file <= 5 * 1024 * 1024 ->
   Client.imageSelected (Image.mimetype file) (Image.size file) = true).
Proof.
  unfold Image.fileFilter, Client.imageSelected. intros F.
  destruct (String.prefix "image/" (Image.mimetype file)) eqn:P;
    [|discriminate F].
  assert (I : includes (Image.mimetype file) "image" = true)
    by (apply prefix_includes, (prefix_shorter "image" "/"), P).
  split; [exact I|]. intros S. rewrite I. simpl.
  destruct (Z.gtb_spec (Image.size file) 5242880); [lia | reflexivity].
Qed.

Lemma upload_filter_within_page_check_witness :
  includes (Image.mimetype Scenario2.photo) "image" = true /\
  (Image.size Scenario2.photo <= 5 * 1024 * 1024 ->
   Client.imageSelected (Image.mimetype Scenario2.photo)
     (Image.size Scenario2.photo) = true).
Proof.
  apply (upload_filter_within_page_check Scenario2.photo). reflexivity.
Defined.

(** ** The API key *)

Lemma substring_length (s : string) (n m : nat) :
  (n + m <= String.length s)%nat ->
  String.length (String.substring n m s) = m.
Proof.
  revert n m; induction s as [|c s IH]; intros [|n] [|m] H;
    simpl in *; try reflexivity; try lia.
  - rewrite (IH 0%nat m); [reflexivity | simpl; lia].
  - apply IH. lia.
  - apply IH. lia.
Qed.

Lemma append_length (a b : string) :
  String.length (a ++ b) = (String.length a + String.length b)%nat.
Proof. induction a as [|c a IH]; simpl; [reflexivity | rewrite IH; reflexivity]. Qed.

(** X22: a key from the environment is reported as set by /api/test
    exactly when [getApiKey] logs no warning for it and it is not ten
    characters long: a ten-character key passes [getApiKey] silently and
    is still reported as not set.  Without a key in the environment
    /api/test reports the key as not set, and a key it reports as set is
    also reported as configured by /api/diagnostics. *)
Theorem api_key_reports_agree :
  (forall envKey,
     envKey <> EmptyString ->
     (ApiKey.apiKeySet (fst (ApiKey.getApiKey (Some envKey))) = true <->
      snd (ApiKey.getApiKey (Some envKey))
      = [(ApiKey.INFO,
          "Using API key from environment variable: "
          ++ ApiKey.maskedKey envKey)] /\
      String.length envKey <> 10%nat)) /\
  ApiKey.apiKeySet (fst (ApiKey.getApiKey None)) = false /\
  (forall key,
     ApiKey.apiKeySet key = true -> ApiKey.key_configured key = true).
Proof.
  split; [|split].
  - intros k N. unfold ApiKey.getApiKey, ApiKey.apiKeySet.
    assert (T : truthy_string k = true)
      by (destruct k; [contradiction | reflexivity]).
    rewrite T. cbn [fst snd].
    destruct (String.eqb k "your-api-key-here") eqn:E.
    + rewrite orb_true_r. cbn [negb andb]. split; [discriminate|].
      intros [H _]. discriminate H.
    + rewrite orb_false_r. cbn [negb andb].
      destruct (Nat.ltb_spec 10 (String.length k)) as [L1|L1];
        destruct (Nat.ltb_spec (String.length k) 10) as [L2|L2];
        try lia;
        (split; [intros X; try discriminate X; (split; [reflexivity | lia])
                |intros [X L]; try discriminate X; try reflexivity; lia]).
  - reflexivity.
  - unfold ApiKey.apiKeySet, ApiKey.key_configured. intros key H.
    apply andb_true_iff in H. tauto.
Qed.

Lemma api_key_reports_agree_witness :
  ApiKey.apiKeySet (fst (ApiKey.getApiKey (Some "AIzaSyD-0123456789abcdef")))
  = true <->
  snd (ApiKey.getApiKey (Some "AIzaSyD-0123456789abcdef"))
  = [(ApiKey.INFO,
      "Using API key from environment variable: "
      ++ ApiKey.maskedKey "AIzaSyD-0123456789abcdef")] /\
  String.length "AIzaSyD-0123456789abcdef" <> 10%nat.
Proof.
  apply (proj1 api_key_reports_agree "AIzaSyD-0123456789abcdef").
  discriminate.
Defined.

(** X23: [getApiKey] never writes a key of at most eight characters to the
    log: for every such key it logs the same two lines, with the mask
    "****"; of a longer key the mask it logs has eleven characters, four
    from each end of the key around three dots. *)
Theorem short_api_keys_stay_out_of_the_log (envKey : string) :
  envKey <> EmptyString ->
  ((String.length envKey <= 8)%nat ->
   snd (ApiKey.getApiKey (Some envKey))
   = [(ApiKey.INFO, "Using API key from environment variable: ****");
      (ApiKey.WARN,
       "The API key from environment looks suspicious (too short or default value)")]) /\
  ((8 < String.length envKey)%nat ->
   String.length (ApiKey.maskedKey envKey) = 11%nat /\
   ApiKey.maskedKey envKey
   = String.substring 0 4 envKey ++ "..."
     ++ String.substring (String.length envKey - 4) 4 envKey).
Proof.
  intros N. unfold ApiKey.getApiKey, ApiKey.maskedKey.
  assert (T : truthy_string envKey = true)
    by (destruct envKey; [contradiction | reflexivity]).
  rewrite T. cbn [snd]. split; intros L.
  - destruct (Nat.ltb_spec 8 (String.length envKey)); [lia|].
    destruct (Nat.ltb_spec (String.length envKey) 10); [|lia].
    reflexivity.
  - destruct (Nat.ltb_spec 8 (String.length envKey)); [|lia].
    split; [|reflexivity].
    rewrite !append_length, !substring_length by lia. reflexivity.
Qed.

Lemma short_api_keys_stay_out_of_the_log_witness :
  snd (ApiKey.getApiKey (Some "secret"))
  = [(ApiKey.INFO, "Using API key from environment variable: ****");
     (ApiKey.WARN,
      "The API key from environment looks suspicious (too short or default value)")].
Proof.
  apply (short_api_keys_stay_out_of_the_log "secret");
    [discriminate | simpl; lia].
Defined.

(** ** The statistics over whole sessions *)

Section Sessions.
Import Analytics.

Lemma has_date_In (today : string) (m : list (string * DayCounts)) :
  has_date today m = true <-> In today (map fst m).
Proof.
  unfold has_date. rewrite existsb_exists. split.
  - intros (e & I & E). apply String.eqb_eq in E. subst today.
    apply in_map, I.
  - intros I. apply in_map_iff in I. destruct I as (e & <- & I).
    exists e. split; [exact I | apply String.eqb_refl].
Qed.

Lemma update_date_keys (today : string) (f : DayCounts -> DayCounts)
    (m : list (string * DayCounts)) :
  map fst (update_date today f m) = map fst m.
Proof.
  unfold update_date. rewrite map_map. apply map_ext.
  intros e. destruct (String.eqb (fst e) today); reflexivity.
Qed.

Lemma update_date_absent (today : string) (f : DayCounts -> DayCounts)
    (m : list (string * DayCounts)) :
  ~ In today (map fst m) -> update_date today f m = m.
Proof.
  induction m as [|e m IH]; simpl; intros N; [reflexivity|].
  destruct (String.eqb_spec (fst e) today) as [E|E]; [tauto|].
  rewrite IH; tauto.
Qed.

Lemma sum_days_update (column : DayCounts -> Z) (f : DayCounts -> DayCounts)
    (delta : Z) (today : string) (m : list (string * DayCounts)) :
  (forall d, column (f d) = column d + delta) ->
  NoDup (map fst m) -> In today (map fst m) ->
  sum_days column (update_date today f m) = sum_days column m + delta.
Proof.
  intros F. induction m as [|e m IH]; simpl; intros N I; [contradiction|].
  inversion N as [|k ks Nk Nm]; subst.
  destruct (String.eqb_spec (fst e) today) as [E|E].
  - subst today. fold (update_date (fst e) f m).
    rewrite (update_date_absent _ _ _ Nk). simpl. rewrite F.
    unfold sum_days. lia.
  - destruct I as [I|I]; [contradiction|].
    fold (update_date today f m). specialize (IH Nm I).
    unfold sum_days in *. simpl. lia.
Qed.

Lemma ensure_date_spec (today : string) (m : list (string * DayCounts)) :
  NoDup (map fst m) ->
  NoDup (map fst (ensure_date today m)) /\
  In today (map fst (ensure_date today m)) /\
  forall column,
    column {| day_user := 0; day_ai := 0 |} = 0 ->
    sum_days column (ensure_date today m) = sum_days column m.
Proof.
  intros N. unfold ensure_date.
  destruct (has_date today m) eqn:H.
  - apply has_date_In in H. auto.
  - assert (A : ~ In today (map fst m)).
    { intros I. apply has_date_In in I. congruence. }
    rewrite map_app. simpl. split; [|split].
    + apply NoDup_app; [exact N | repeat constructor; intros [] |].
      intros k I [<-|[]]. contradiction.
    + apply in_or_app. right. left. reflexivity.
    + intros column Z0. unfold sum_days. rewrite fold_right_app. simpl.
      rewrite Z0. reflexivity.
Qed.

(** What tracking a message does to the per-day table. *)
Lemma bucket_update (column other : DayCounts -> Z)
    (f : DayCounts -> DayCounts) (today : string)
    (m : list (string * DayCounts)) :
  (forall d, column (f d) = column d + 1) ->
  (forall d, other (f d) = other d + 0) ->
  column {| day_user := 0; day_ai := 0 |} = 0 ->
  other {| day_user := 0; day_ai := 0 |} = 0 ->
  NoDup (map fst m) ->
  NoDup (map fst (update_date today f (ensure_date today m))) /\
  sum_days column (update_date today f (ensure_date today m))
  = sum_days column m + 1 /\
  sum_days other (update_date today f (ensure_date today m))
  = sum_days other m.
Proof.
  intros C O C0 O0 N.
  destruct (ensure_date_spec today m N) as (N' & I & S).
  rewrite update_date_keys. split; [exact N'|]. split.
  - rewrite (sum_days_update column f 1 today _ C N' I), (S _ C0).
    reflexivity.
  - rewrite (sum_days_update other f 0 today _ O N' I), (S _ O0). lia.
Qed.

(** X24: in every state the operations reach from the zeroed record, the
    per-day table has one row per date, and its user and AI columns add up
    to [userMessages] and [aiMessages]. *)
Theorem daily_counts_add_up (s : ConversationStats) :
  reachable s ->
  NoDup (map fst (messagesByDate s)) /\
  sum_days day_user (messagesByDate s) = userMessages s /\
  sum_days day_ai (messagesByDate s) = aiMessages s.
Proof.
  induction 1 as [|op s R (N & U & A)].
  - repeat split. constructor.
  - destruct op as [message iso now|response now stamp iso| |]; simpl.
    + destruct (bucket_update day_user day_ai incr_user (split_T_0 iso)
                  (messagesByDate s)) as (N' & U' & A');
        [reflexivity | intros; simpl; lia | reflexivity | reflexivity
        | exact N |].
      rewrite U', A'. repeat split; [exact N' | lia | lia].
    + unfold trackAIResponse.
      destruct (bucket_update day_ai day_user incr_ai (split_T_0 iso)
                  (messagesByDate s)) as (N' & A' & U');
        [reflexivity | intros; simpl; lia | reflexivity | reflexivity
        | exact N |].
      destruct (pending (lastQuery s)); simpl;
        rewrite U', A'; repeat split; try exact N'; lia.
    + auto.
    + repeat split. constructor.
Qed.

(** X25: in every reachable state [totalResponseTime] is the sum of the
    recorded durations. *)
Theorem total_time_is_sum_of_samples (s : ConversationStats) :
  reachable s ->
  totalResponseTime s = sum_durations (responseTimeHistory s).
Proof.
  induction 1 as [|op s R IH]; [reflexivity|].
  destruct op as [message iso now|response now stamp iso| |]; simpl;
    try exact IH; try reflexivity.
  unfold trackAIResponse.
  destruct (pending (lastQuery s)) as [asked|]; simpl; [|exact IH].
  unfold sum_durations. rewrite map_app, fold_left_app. simpl.
  fold (sum_durations (responseTimeHistory s)). rewrite <- IH. reflexivity.
Qed.

(** X26: in every reachable state there are at most as many samples as AI
    responses, and the samples together with a waiting query are at most
    as many as the user messages. *)
Theorem samples_bounded_by_messages (s : ConversationStats) :
  reachable s ->
  Z.of_nat (List.length (responseTimeHistory s)) <= aiMessages s /\
  Z.of_nat (List.length (responseTimeHistory s)) + waiting s
  <= userMessages s.
Proof.
  induction 1 as [|op s R (A & U)]; [unfold waiting; simpl; lia|].
  assert (W : 0 <= waiting s <= 1)
    by (unfold waiting; destruct (pending (lastQuery s)); lia).
  destruct op as [message iso now|response now stamp iso| |]; simpl.
  - unfold waiting. simpl. destruct (now =? 0); simpl; lia.
  - unfold trackAIResponse, waiting in *.
    destruct (pending (lastQuery s)) as [asked|]; simpl;
      rewrite ?length_app; simpl; lia.
  - exact (conj A U).
  - unfold waiting. simpl. lia.
Qed.

(** X27: the slot for the pending query holds one time stamp: after two
    user messages in a row, the next AI response records a single sample,
    measured from the second message. *)
Theorem second_query_overwrites_first (s : ConversationStats)
    (message1 iso1 : string) (asked1 : Z)
    (message2 iso2 : string) (asked2 : Z)
    (response : string) (now : Z) (stamp iso : string) :
  asked2 <> 0 ->
  responseTimeHistory
    (trackAIResponse response now stamp iso
       (trackUserMessage message2 iso2 asked2
          (trackUserMessage message1 iso1 asked1 s)))
  = (responseTimeHistory s
     ++ [{| time := stamp;
            duration := (inject_Z (now - asked2) / inject_Z 1000)%Q |}])%list.
Proof.
  intros N. unfold trackAIResponse. simpl.
  destruct (Z.eqb_spec asked2 0); [contradiction | reflexivity].
Qed.

Lemma estimateTokens_quarter (message : string) :
  estimateTokens message = (Z.of_nat (String.length message) + 3) / 4.
Proof.
  unfold estimateTokens, TOKENS_PER_CHAR, Qceiling, Qfloor.
  generalize (Z.of_nat (String.length message)) as n. intros n. simpl.
  replace (n * 25) with (25 * n) by lia.
  assert (H := Z.div_mod (- (25 * n)) 100).
  assert (H' := Z.mod_pos_bound (- (25 * n)) 100).
  assert (K := Z.div_mod (n + 3) 4).
  assert (K' := Z.mod_pos_bound (n + 3) 4).
  lia.
Qed.

(** X28: the token estimate of a message is its length divided by four,
    rounded up: an empty message costs nothing, and four times the
    estimate exceeds the length by less than four. *)
Theorem token_estimate_is_quarter_length (message : string) :
  estimateTokens message = (Z.of_nat (String.length message) + 3) / 4 /\
  Z.of_nat (String.length message) <= 4 * estimateTokens message
  < Z.of_nat (String.length message) + 4 /\
  estimateTokens message <= Z.of_nat (String.length message).
Proof.
  rewrite estimateTokens_quarter.
  assert (K := Z.div_mod (Z.of_nat (String.length message) + 3) 4).
  assert (K' := Z.mod_pos_bound (Z.of_nat (String.length message) + 3) 4).
  lia.
Qed.

(** X29: in every reachable state the estimated input tokens lie between
    a quarter of the characters the user has typed and all of them, and
    likewise the output tokens for the characters of the AI. *)
Theorem tokens_track_characters (s : ConversationStats) :
  reachable s ->
  input (tokenUsage s) <= chars_user (characterCounts s)
  <= 4 * input (tokenUsage s) /\
  output (tokenUsage s) <= chars_ai (characterCounts s)
  <= 4 * output (tokenUsage s).
Proof.
  induction 1 as [|op s R IH]; [simpl; lia|].
  destruct op as [message iso now|response now stamp iso| |];
    unfold apply, trackUserMessage, trackAIResponse, trackImageUpload,
      resetStats, zeroStats;
    try destruct (pending (lastQuery s));
    cbn [tokenUsage characterCounts input output chars_user chars_ai];
    rewrite ?estimateTokens_quarter;
    try assert (K := Z.div_mod (Z.of_nat (String.length message) + 3) 4);
    try assert (K' := Z.mod_pos_bound
                        (Z.of_nat (String.length message) + 3) 4);
    try assert (K := Z.div_mod (Z.of_nat (String.length response) + 3) 4);
    try assert (K' := Z.mod_pos_bound
                        (Z.of_nat (String.length response) + 3) 4);
    lia.
Qed.

End Sessions.

Lemma daily_counts_add_up_witness :
  NoDup (map fst (Analytics.messagesByDate Scenario2.session)) /\
  sum_days Analytics.day_user (Analytics.messagesByDate Scenario2.session)
  = Analytics.userMessages Scenario2.session /\
  sum_days Analytics.day_ai (Analytics.messagesByDate Scenario2.session)
  = Analytics.aiMessages Scenario2.session.
Proof.
  apply (daily_counts_add_up Scenario2.session).
  unfold Scenario2.session. repeat constructor.
Defined.

Lemma total_time_is_sum_of_samples_witness :
  Analytics.totalResponseTime Scenario2.session
  = sum_durations (Analytics.responseTimeHistory Scenario2.session).
Proof.
  apply (total_time_is_sum_of_samples Scenario2.session).
  unfold Scenario2.session. repeat constructor.
Defined.

Lemma samples_bounded_by_messages_witness :
  Z.of_nat (List.length (Analytics.responseTimeHistory Scenario2.session))
  <= Analytics.aiMessages Scenario2.session /\
  Z.of_nat (List.length (Analytics.responseTimeHistory Scenario2.session))
  + waiting Scenario2.session
  <= Analytics.userMessages Scenario2.session.
Proof.
  apply (samples_bounded_by_messages Scenario2.session).
  unfold Scenario2.session. repeat constructor.
Defined.

Lemma second_query_overwrites_first_witness :
  Analytics.responseTimeHistory
    (Analytics.trackAIResponse "hi there" 4000 "2024-05-01T10:00:04.000Z"
       "2024-05-01T10:00:04.000Z"
       (Analytics.trackUserMessage "are you there?"
          "2024-05-01T10:00:02.000Z" 2000
          (Analytics.trackUserMessage "hello" "2024-05-01T10:00:00.000Z" 1000
             Analytics.zeroStats)))
  = (Analytics.responseTimeHistory Analytics.zeroStats
     ++ [{| Analytics.time := "2024-05-01T10:00:04.000Z";
            Analytics.duration :=
              (inject_Z (4000 - 2000) / inject_Z 1000)%Q |}])%list.
Proof.
  apply (second_query_overwrites_first Analytics.zeroStats). lia.
Defined.

Lemma tokens_track_characters_witness :
  Analytics.input (Analytics.tokenUsage Scenario2.session)
  <= Analytics.chars_user (Analytics.characterCounts Scenario2.session)
  <= 4 * Analytics.input (Analytics.tokenUsage Scenario2.session) /\
  Analytics.output (Analytics.tokenUsage Scenario2.session)
  <= Analytics.chars_ai (Analytics.characterCounts Scenario2.session)
  <= 4 * Analytics.output (Analytics.tokenUsage Scenario2.session).
Proof.
  apply (tokens_track_characters Scenario2.session).
  unfold Scenario2.session. repeat constructor.
Defined.
